(** * Gitalyzer backend: a shallow embedding and its verified properties

    The development follows the layout of [backend/]:
    - [PyStr], [Py]: the fragment of Python's [str] methods and of its
      dynamically typed values that the backend relies on;
    - [config], [github_client], [ai_agent], [pdf_generator], [main]:
      one module per source file, each definition a transcription of the
      function of the same name; [models] holds the pydantic classes of
      [main.py], which the renderer needs before the endpoints;
    - the vocabulary of the statements, then the properties with their
      proofs.

    Outbound effects (HTTP calls, the chat-completion call) are explicit
    parameters; exceptions are values of the error monad [sum Exn]; the
    FPDF object is threaded through a state monad. *)

From Stdlib Require Import List String Ascii ZArith NArith Bool Lia.
From Stdlib Require Import DecimalString SpecFloat.
From ExtLib Require Import Structures.Monad Structures.MonadState Structures.MonadExc.
From ExtLib Require Import Data.Monads.StateMonad Data.Monads.EitherMonad.
Import ListNotations.
Import MonadNotation.
Local Open Scope monad_scope.
Local Open Scope string_scope.
Local Open Scope list_scope.

(* ===================================================================== *)
(** * Python strings *)
(* ===================================================================== *)

(** A Python [str] is a sequence of Unicode code points.  The renderer
    distinguishes the code points that Latin-1 can encode from those it
    cannot, so a character is its code point, not a byte. *)
Module PyStr.

Definition char := N.
Definition str := list char.

(** The [str] denoted by an ASCII literal of the source. *)
Definition lit (s : string) : str := map N_of_ascii (list_ascii_of_string s).

Definition char_in (chars : str) (c : char) : bool := existsb (N.eqb c) chars.

Fixpoint eqb (a b : str) : bool :=
  match a, b with
  | [], [] => true
  | x :: a', y :: b' => N.eqb x y && eqb a' b'
  | _, _ => false
  end.

(** [str.isspace] per character: the code points [str.strip()] removes. *)
Definition is_space (c : char) : bool :=
  ((9 <=? c) && (c <=? 13) || (28 <=? c) && (c <=? 32)
   || (c =? 133) || (c =? 160) || (c =? 5760)
   || (8192 <=? c) && (c <=? 8202)
   || (c =? 8232) || (c =? 8233) || (c =? 8239) || (c =? 8287)
   || (c =? 12288))%N.

(** The line boundaries of [str.splitlines()]. *)
Definition is_linebreak (c : char) : bool :=
  ((10 <=? c) && (c <=? 13) || (28 <=? c) && (c <=? 30)
   || (c =? 133) || (c =? 8232) || (c =? 8233))%N.

(** Encodable by [.encode("latin-1")]. *)
Definition is_latin1 (c : char) : bool := (c <? 256)%N.

Fixpoint lstrip_with (P : char -> bool) (s : str) : str :=
  match s with
  | [] => []
  | c :: s' => if P c then lstrip_with P s' else s
  end.

Fixpoint rstrip_with (P : char -> bool) (s : str) : str :=
  match s with
  | [] => []
  | c :: s' =>
      match rstrip_with P s' with
      | [] => if P c then [] else [c]
      | r => c :: r
      end
  end.

(** [s.strip()] *)
Definition strip (s : str) : str := lstrip_with is_space (rstrip_with is_space s).

(** [s.rstrip(chars)] *)
Definition rstrip (chars : str) (s : str) : str := rstrip_with (char_in chars) s.

(** [s.startswith(p)] *)
Fixpoint startswith (p s : str) : bool :=
  match p, s with
  | [], _ => true
  | x :: p', y :: s' => N.eqb x y && startswith p' s'
  | _ :: _, [] => false
  end.

(** [s.endswith(p)] *)
Definition endswith (p s : str) : bool := startswith (rev p) (rev s).

(** [sub in s] *)
Fixpoint contains (sub s : str) : bool :=
  startswith sub s ||
  match s with
  | [] => false
  | _ :: s' => contains sub s'
  end.

(** [s[:-n]] *)
Definition drop_last (n : nat) (s : str) : str := firstn (List.length s - n) s.

(** [s[:n]] *)
Definition slice_to (n : nat) (s : str) : str := firstn n s.

(** [s.split(sep)] for a non-empty [sep]: the pieces between the
    occurrences of [sep], found left to right without overlap.  [skip]
    counts the characters of a matched separator still to be passed,
    [cur] is the piece being read. *)
Fixpoint split_go (sep s : str) (skip : nat) (cur : str) : list str :=
  match s with
  | [] => [cur]
  | c :: s' =>
      match skip with
      | S k => split_go sep s' k cur
      | O =>
          if startswith sep s
          then cur :: split_go sep s' (List.length sep - 1) []
          else split_go sep s' 0 (cur ++ [c])
      end
  end.

Definition split (sep s : str) : list str := split_go sep s 0 [].

(** [s.split(sep, 1)]: at most one cut, at the first occurrence. *)
Fixpoint split1_go (sep s cur : str) : list str :=
  match s with
  | [] => [cur]
  | c :: s' =>
      if startswith sep s then [cur; skipn (List.length sep) s]
      else split1_go sep s' (cur ++ [c])
  end.

Definition split1 (sep s : str) : list str := split1_go sep s [].

(** [s.splitlines()]: cut at every line boundary, a carriage return
    followed by a line feed counting once; no empty piece after a final
    boundary.  [after_cr] records that the previous character was a
    carriage return that ended a line. *)
Fixpoint splitlines_go (s cur : str) (after_cr : bool) : list str :=
  match s with
  | [] => match cur with [] => [] | _ => [cur] end
  | c :: s' =>
      if after_cr && (c =? 10)%N then splitlines_go s' cur false
      else if is_linebreak c then cur :: splitlines_go s' [] (c =? 13)%N
      else splitlines_go s' (cur ++ [c]) false
  end.

Definition splitlines (s : str) : list str := splitlines_go s [] false.

(** [sep.join(parts)] *)
Fixpoint join (sep : str) (parts : list str) : str :=
  match parts with
  | [] => []
  | [p] => p
  | p :: rest => p ++ sep ++ join sep rest
  end.

(** [str(n)] for an [int]. *)
Definition of_Z (z : Z) : str := lit (NilZero.string_of_int (Z.to_int z)).

(** [l[-1]] of a list of strings that [split] returned (never empty). *)
Definition last_piece (l : list str) : str := last l [].

(** [l[i]] for an index [i] known to be below [len(l)]. *)
Definition item (i : nat) (l : list str) : str := nth i l [].

Definition nonempty (s : str) : bool := match s with [] => false | _ => true end.

End PyStr.
Import PyStr.

(* ===================================================================== *)
(** * Python values and exceptions *)
(* ===================================================================== *)

Module Py.

(** The values [json.loads] and [Response.json()] return.  A [dict] keeps
    its insertion order, so it is an association list; [dict_get] reads
    the first binding of a key. *)
#[local] Unset Elimination Schemes.
Inductive pyval : Type :=
| PNone
| PBool (b : bool)
| PInt (z : Z)
| PFloat (f : spec_float)
| PStr (s : str)
| PList (l : list pyval)
| PDict (d : list (str * pyval)).
#[local] Set Elimination Schemes.

(** The exceptions that travel through the backend.  The ones the standard
    library or a collaborator raises carry their message. *)
Inductive Exn : Type :=
| ValueError (msg : str)
| GitHubAPIError (msg : str)
| AttributeError (msg : str)
| TypeError (msg : str)
| JSONDecodeError (msg : str)
| BinasciiError (msg : str)
| HTTPError (msg : str)            (* httpx: transport failure, timeout *)
| OpenAIError (msg : str)          (* openai: authentication, quota, network *)
| ValidationError (errors : list (list str * str))   (* pydantic: (location, error type) *)
| UnicodeEncodeError (msg : str).

Definition Result := sum Exn.

Definition type_name (v : pyval) : str :=
  match v with
  | PNone => lit "NoneType"
  | PBool _ => lit "bool"
  | PInt _ => lit "int"
  | PFloat _ => lit "float"
  | PStr _ => lit "str"
  | PList _ => lit "list"
  | PDict _ => lit "dict"
  end.

Definition no_attribute (v : pyval) (attr : string) : Exn :=
  AttributeError (lit "'" ++ type_name v ++ lit "' object has no attribute '" ++ lit attr ++ lit "'").

(** [bool(v)] *)
Definition truthy (v : pyval) : bool :=
  match v with
  | PNone => false
  | PBool b => b
  | PInt z => negb (z =? 0)%Z
  | PFloat f => match f with S754_zero _ => false | _ => true end
  | PStr s => match s with [] => false | _ => true end
  | PList l => match l with [] => false | _ => true end
  | PDict d => match d with [] => false | _ => true end
  end.

(** [bool(l)] for a list *)
Definition some {A : Type} (l : list A) : bool :=
  match l with [] => false | _ => true end.

(** [a or b] *)
Definition py_or (a b : pyval) : pyval := if truthy a then a else b.

Fixpoint dict_get {A : Type} (k : str) (d : list (str * A)) : option A :=
  match d with
  | [] => None
  | (k', v) :: d' => if PyStr.eqb k k' then Some v else dict_get k d'
  end.

(** [v.get(k, default)]: only a [dict] has the method. *)
Definition py_get (v : pyval) (k : string) (default : pyval) : Result pyval :=
  match v with
  | PDict d => ret (match dict_get (lit k) d with Some x => x | None => default end)
  | _ => raise (no_attribute v "get")
  end.

(** [k in d], for a [d] already known to be a [dict]. *)
Definition has_key (k : string) (v : pyval) : bool :=
  match v with
  | PDict d => match dict_get (lit k) d with Some _ => true | None => false end
  | _ => false
  end.

(** [v == "text"] *)
Definition py_eq_str (v : pyval) (s : string) : bool :=
  match v with
  | PStr x => PyStr.eqb x (lit s)
  | _ => false
  end.

(** The items [for item in v] visits: the elements of a list, the keys of
    a dict, the characters of a string; other values cannot be iterated. *)
Definition py_iter (v : pyval) : Result (list pyval) :=
  match v with
  | PList l => ret l
  | PDict d => ret (map (fun kv => PStr (fst kv)) d)
  | PStr s => ret (map (fun c => PStr [c]) s)
  | _ => raise (TypeError (lit "'" ++ type_name v ++ lit "' object is not iterable"))
  end.

(** Run [f] on every element, left to right, stopping at the first
    exception: a [for] loop that appends one result per item. *)
Fixpoint for_each {A B : Type} (f : A -> Result B) (l : list A) : Result (list B) :=
  match l with
  | [] => ret []
  | x :: l' => y <- f x ;; ys <- for_each f l' ;; ret (y :: ys)
  end.

(** [x or default] for an [Optional[str]] *)
Definition opt_or (x : option str) (default : str) : str :=
  match x with
  | Some (c :: s) => c :: s
  | _ => default
  end.

(** [f"{x}"] for an [Optional[str]] *)
Definition fmt_opt (x : option str) : str :=
  match x with
  | Some s => s
  | None => lit "None"
  end.

End Py.
Import Py.

(* ===================================================================== *)
(** * config.py *)
(* ===================================================================== *)

Module config.

Definition SYSTEM_PROMPT : str := lit
  ("You are Gitalyzer, an AI guide that explains software projects in plain language. "
   ++ "Assume the listener has no background in programming. Use friendly, non-technical "
   ++ "language, keep sentences short, and provide helpful analogies when possible. "
   ++ "Highlight what problems the project solves, what someone can do with it, and the "
   ++ "minimum technical steps needed to try it out. Always sound encouraging and practical.").

Definition ANALYSIS_FIELDS : list (str * str) :=
  [ (lit "project_summary", lit "A warm, one-paragraph overview that explains the project at a very high level.");
    (lit "how_it_helps_people", lit "A plain-language explanation of the real-world value it delivers.");
    (lit "main_features", lit "Three to five bullet points describing the most important things the project can do.");
    (lit "how_it_works", lit "Step-by-step bullets that describe, without jargon, how the project behaves behind the scenes.");
    (lit "tech_stack", lit "A bullet list of the main tools, frameworks, or languages, each explained simply.");
    (lit "getting_started", lit "A checklist someone could follow to see the project running, phrased for non-experts.");
    (lit "next_steps", lit "Friendly suggestions for future improvements or directions to explore.");
    (lit "glossary", lit "A short dictionary of tricky words with beginner-friendly definitions.") ].

End config.

(* ===================================================================== *)
(** * github_client.py *)
(* ===================================================================== *)

Module github_client.

Definition GITHUB_API_BASE : str := lit "https://api.github.com".

(** The marker [split] cuts at, and the shorter one the guard tests. *)
Definition marker : str := lit "github.com/".
Definition domain : str := lit "github.com".

Definition extract_owner_repo (repo_url : str) : Result (str * str) :=
  if negb (contains domain repo_url) then
    raise (ValueError (lit "The provided URL does not appear to be a GitHub repository"))
  else
    let cleaned := rstrip (lit "/") (strip repo_url) in
    let parts := split (lit "/") (last_piece (split marker cleaned)) in
    if (List.length parts <? 2)%nat then
      raise (ValueError (lit "Please include both the owner and repository name in the URL"))
    else
      let owner := item 0 parts in
      let repo := item 1 parts in
      let repo := if endswith (lit ".git") repo then drop_last 4 repo else repo in
      ret (owner, repo).

(** An [httpx.Response], as far as the client reads it. *)
Record Response : Type := { status_code : Z; text : str }.

Section Fetch.

(** [client.get(url, params=...)]: the provider's answer, or the
    exception of a failed transport. *)
Variable client_get : str -> list (str * Z) -> Result Response.
(** [json.loads], which [Response.json()] applies to the body. *)
Variable json_loads : str -> Result pyval.
(** [base64.b64decode(s.encode())] followed by
    [.decode("utf-8", errors="ignore")]: the first step may raise, the
    second cannot. *)
Variable b64decode : str -> Result (list N).
Variable decode_utf8_ignore : list N -> str.

Definition json (resp : Response) : Result pyval := json_loads (text resp).

Definition repo_url_of (owner repo : str) : str :=
  GITHUB_API_BASE ++ lit "/repos/" ++ owner ++ lit "/" ++ repo.

(** The body of the [if readme_resp.status_code == 200] branch. *)
Definition read_readme (readme_resp : Response) : Result str :=
  readme_payload <- json readme_resp ;;
  encoding <- py_get readme_payload "encoding" (PStr (lit "base64")) ;;
  if py_eq_str encoding "base64" && has_key "content" readme_payload then
    content <- py_get readme_payload "content" PNone ;;
    match content with
    | PStr c =>
        raw_bytes <- b64decode c ;;
        ret (decode_utf8_ignore raw_bytes)
    | _ => raise (no_attribute content "encode")
    end
  else ret [].

(** The body of the loop over [commits_resp.json()]. *)
Definition read_commit (item : pyval) : Result pyval :=
  commit <- py_get item "commit" (PDict []) ;;
  message <- py_get commit "message" (PStr []) ;;
  author <- py_get commit "author" PNone ;;
  date <- py_get (py_or author (PDict [])) "date" PNone ;;
  ret (PDict [(lit "message", message); (lit "date", date)]).

(** The body of the [if commits_resp.status_code == 200] branch. *)
Definition read_commits (commits_resp : Response) : Result (list pyval) :=
  payload <- json commits_resp ;;
  items <- py_iter payload ;;
  for_each read_commit items.

Definition fetch_repository_snapshot (owner repo : str) : Result pyval :=
  repo_resp <- client_get (repo_url_of owner repo) [] ;;
  if negb (status_code repo_resp =? 200)%Z then
    raise (GitHubAPIError (lit "Unable to retrieve repository: "
                           ++ of_Z (status_code repo_resp) ++ lit " " ++ text repo_resp))
  else
    repo_data <- json repo_resp ;;

    languages_resp <- client_get (repo_url_of owner repo ++ lit "/languages") [] ;;
    languages_data <- (if (status_code languages_resp =? 200)%Z
                       then json languages_resp else ret (PDict [])) ;;

    readme_resp <- client_get (repo_url_of owner repo ++ lit "/readme") [] ;;
    readme_text <- (if (status_code readme_resp =? 200)%Z
                    then read_readme readme_resp else ret []) ;;

    commits_resp <- client_get (repo_url_of owner repo ++ lit "/commits")
                               [(lit "per_page", 5%Z)] ;;
    commits <- (if (status_code commits_resp =? 200)%Z
                then read_commits commits_resp else ret []) ;;

    topics <- py_get repo_data "topics" (PList []) ;;
    name <- py_get repo_data "name" PNone ;;
    full_name <- py_get repo_data "full_name" PNone ;;
    description <- py_get repo_data "description" PNone ;;
    html_url <- py_get repo_data "html_url" PNone ;;
    default_branch <- py_get repo_data "default_branch" PNone ;;
    license <- py_get repo_data "license" PNone ;;
    license_name <- py_get (py_or license (PDict [])) "name" PNone ;;
    stars <- py_get repo_data "stargazers_count" (PInt 0) ;;
    forks <- py_get repo_data "forks_count" (PInt 0) ;;
    open_issues <- py_get repo_data "open_issues_count" (PInt 0) ;;
    watchers <- py_get repo_data "subscribers_count" (PInt 0) ;;
    language <- py_get repo_data "language" PNone ;;
    ret (PDict
           [ (lit "name", name);
             (lit "full_name", full_name);
             (lit "description", description);
             (lit "html_url", html_url);
             (lit "default_branch", default_branch);
             (lit "license", license_name);
             (lit "stars", stars);
             (lit "forks", forks);
             (lit "open_issues", open_issues);
             (lit "watchers", watchers);
             (lit "language", language);
             (lit "topics", topics);
             (lit "languages", languages_data);
             (lit "recent_commits", PList commits);
             (lit "readme_excerpt", PStr (slice_to 4000 readme_text)) ]).

End Fetch.

End github_client.

(* ===================================================================== *)
(** * ai_agent.py *)
(* ===================================================================== *)

Module ai_agent.

Definition DEFAULT_MODEL : str := lit "gpt-4o-mini".

Definition newline : str := [10%N].

Definition _build_user_prompt (context : str) : str :=
  let schema_lines :=
    map (fun fd => lit "- " ++ fst fd ++ lit ": " ++ snd fd) config.ANALYSIS_FIELDS in
  lit "You will receive a description of a GitHub repository. "
  ++ lit "Explain the project to a complete beginner and respond with valid JSON."
  ++ newline ++ newline
  ++ lit "Required JSON fields:" ++ newline
  ++ join newline schema_lines
  ++ newline ++ newline
  ++ lit "Important rules:" ++ newline
  ++ lit "- Keep language friendly and free of jargon." ++ newline
  ++ lit "- Every list should contain at least three helpful items when possible." ++ newline
  ++ lit "- Definitions in the glossary must be short and clear." ++ newline
  ++ lit "- Return only valid JSON. Do not wrap it in code fences." ++ newline ++ newline
  ++ lit "Repository information:" ++ newline
  ++ context.

Section Agent.

(** [OpenAI(api_key=...).chat.completions.create(model=..., temperature=0.3,
    messages=...)] read at [.choices[0].message.content]: the text of
    the first choice ([None] when the service sends none), or the
    exception of a failed call.  The arguments are the key, the model
    and the (role, content) messages. *)
Variable chat_completion : str -> str -> list (str * str) -> Result (option str).
Variable json_loads : str -> Result pyval.

Definition call_ai_agent (context api_key model : str) : Result (pyval * str) :=
  content <- chat_completion api_key model
               [ (lit "system", config.SYSTEM_PROMPT);
                 (lit "user", _build_user_prompt context) ] ;;
  let message := opt_or content (lit "{}") in
  data <- json_loads message ;;
  ret (data, message).

End Agent.

Definition PList_str (l : list string) : pyval := PList (map (fun s => PStr (lit s)) l).

Definition glossary_entry (term definition : string) : pyval :=
  PDict [(lit "term", PStr (lit term)); (lit "definition", PStr (lit definition))].

(** [next((line.split(":", 1)[1].strip() for line in lines
          if line.startswith(prefix)), "")] *)
Definition first_value (prefix : string) (lines : list str) : str :=
  match find (startswith (lit prefix)) lines with
  | Some line => strip (item 1 (split1 (lit ":") line))
  | None => []
  end.

(** [[line.strip() for line in context.splitlines() if line.strip()]] *)
Definition context_lines (context : str) : list str :=
  filter nonempty (map strip (splitlines context)).

Definition generate_rule_based_summary (context : str) : pyval :=
  let lines := context_lines context in
  let description := first_value "Description:" lines in
  let languages := first_value "Languages:" lines in
  let headline :=
    if nonempty description then description
    else lit "This repository does not include a description on GitHub." in
  PDict
    [ (lit "project_summary", PStr headline);
      (lit "how_it_helps_people",
        PStr (lit ("This project could be useful to people who are interested in exploring the code base. "
                   ++ "Provide an OpenAI API key to unlock a tailored explanation.")));
      (lit "main_features",
        PList_str [ "Automatic GitHub metadata gathering";
                    "Displays the README excerpt if one exists";
                    "Summarises recent commit messages for a quick update" ]);
      (lit "how_it_works",
        PList_str [ "The app downloads information directly from GitHub using their public API.";
                    "It organises the repository details, language statistics, and README summary.";
                    "Without an AI key it falls back to this simple overview to keep the experience working." ]);
      (lit "tech_stack",
        PList [ PStr (lit "GitHub topics: "
                      ++ (if nonempty languages then languages else lit "Not specified"));
                PStr (lit "Primary language reported by GitHub: "
                      ++ (if nonempty languages
                          then item 0 (split (lit ",") languages)
                          else lit "Unknown"));
                PStr (lit "Recent commits are highlighted to show ongoing work.") ]);
      (lit "getting_started",
        PList_str [ "Paste a public GitHub repository URL into the form.";
                    "Optionally provide an OpenAI API key so the AI guide can craft a custom explanation.";
                    "Review the generated summary online or export it as a PDF." ]);
      (lit "next_steps",
        PList_str [ "Add an OpenAI API key to unlock richer, human-friendly storytelling.";
                    "Share the generated PDF with teammates who need a high-level overview.";
                    "Explore the README and commits directly on GitHub for deeper technical context." ]);
      (lit "glossary",
        PList [ glossary_entry "Repository" "A storage space on GitHub that holds a project's files.";
                glossary_entry "Commit" "A snapshot of changes developers save to the project.";
                glossary_entry "README" "A document that usually explains what the project is about." ]) ].

End ai_agent.

(* ===================================================================== *)
(** * main.py: the pydantic models *)
(* ===================================================================== *)

Module models.

Record GlossaryItem : Type := { term : str; definition : str }.

Record RepositoryAnalysis : Type :=
  { project_summary : str;
    how_it_helps_people : str;
    main_features : list str;
    how_it_works : list str;
    tech_stack : list str;
    getting_started : list str;
    next_steps : list str;
    glossary : list GlossaryItem }.

Record RepositoryInfo : Type :=
  { name : option str;
    full_name : option str;
    description : option str;
    html_url : option str;
    default_branch : option str;
    license : option str;
    stars : Z;
    forks : Z;
    open_issues : Z;
    watchers : Z;
    language : option str;
    topics : list str;
    languages : list (str * Z);
    recent_commits : list (list (str * option str));
    readme_excerpt : option str }.

(** ** [RepositoryAnalysis.model_validate]

    Pydantic checks every declared field and reports all failures at once,
    each with its location and error type.  Neither model sets
    [model_config], so keys that are not declared fields are ignored, and
    validation is not strict; on the values JSON can produce, a [str]
    field takes only a string and a [list] field only a list. *)

Definition Errors := list (list str * str).
Definition Checked (A : Type) : Type := sum Errors A.

Definition both {A B : Type} (a : Checked A) (b : Checked B) : Checked (A * B) :=
  match a, b with
  | inr x, inr y => inr (x, y)
  | inl e, inr _ => inl e
  | inr _, inl e => inl e
  | inl e1, inl e2 => inl (e1 ++ e2)
  end.

Definition check_str (loc : list str) (v : option pyval) : Checked str :=
  match v with
  | Some (PStr s) => inr s
  | Some _ => inl [(loc, lit "string_type")]
  | None => inl [(loc, lit "missing")]
  end.

(** The items of a list, each checked at its index. *)
Fixpoint check_items {A : Type} (check : list str -> pyval -> Checked A)
    (loc : list str) (i : Z) (l : list pyval) : Checked (list A) :=
  match l with
  | [] => inr []
  | v :: l' =>
      match both (check (loc ++ [of_Z i]) v) (check_items check loc (i + 1) l') with
      | inr (x, xs) => inr (x :: xs)
      | inl e => inl e
      end
  end.

(** A field declared [list[...] = Field(default_factory=list)]. *)
Definition check_list {A : Type} (check : list str -> pyval -> Checked A)
    (loc : list str) (v : option pyval) : Checked (list A) :=
  match v with
  | None => inr []
  | Some (PList l) => check_items check loc 0 l
  | Some _ => inl [(loc, lit "list_type")]
  end.

Definition check_glossary_item (loc : list str) (v : pyval) : Checked GlossaryItem :=
  match v with
  | PDict d =>
      match both (check_str (loc ++ [lit "term"]) (dict_get (lit "term") d))
                 (check_str (loc ++ [lit "definition"]) (dict_get (lit "definition") d)) with
      | inr (t, df) => inr {| term := t; definition := df |}
      | inl e => inl e
      end
  | _ => inl [(loc, lit "model_type")]
  end.

Definition check_strs : list str -> option pyval -> Checked (list str) :=
  check_list (fun loc v => check_str loc (Some v)).

Definition check_analysis (d : list (str * pyval)) : Checked RepositoryAnalysis :=
  let field (k : string) := dict_get (lit k) d in
  match
    both (check_str [lit "project_summary"] (field "project_summary"))
   (both (check_str [lit "how_it_helps_people"] (field "how_it_helps_people"))
   (both (check_strs [lit "main_features"] (field "main_features"))
   (both (check_strs [lit "how_it_works"] (field "how_it_works"))
   (both (check_strs [lit "tech_stack"] (field "tech_stack"))
   (both (check_strs [lit "getting_started"] (field "getting_started"))
   (both (check_strs [lit "next_steps"] (field "next_steps"))
         (check_list check_glossary_item [lit "glossary"] (field "glossary"))))))))
  with
  | inr (ps, (hh, (mf, (hw, (ts, (gs, (ns, gl))))))) =>
      inr {| project_summary := ps; how_it_helps_people := hh; main_features := mf;
             how_it_works := hw; tech_stack := ts; getting_started := gs;
             next_steps := ns; glossary := gl |}
  | inl e => inl e
  end.

Definition model_validate (obj : pyval) : Result RepositoryAnalysis :=
  match obj with
  | PDict d =>
      match check_analysis d with
      | inr a => ret a
      | inl e => raise (ValidationError e)
      end
  | _ => raise (ValidationError [([], lit "model_type")])
  end.

(** ** [RepositoryAnalysis.model_dump]

    The dictionary of a model: its fields in the order of declaration,
    the glossary items dumped to dictionaries in turn. *)
Definition dump_strs (l : list str) : pyval := PList (map PStr l).

Definition dump_glossary_item (entry : GlossaryItem) : pyval :=
  PDict [ (lit "term", PStr (term entry)); (lit "definition", PStr (definition entry)) ].

Definition model_dump (a : RepositoryAnalysis) : pyval :=
  PDict [ (lit "project_summary", PStr (project_summary a));
          (lit "how_it_helps_people", PStr (how_it_helps_people a));
          (lit "main_features", dump_strs (main_features a));
          (lit "how_it_works", dump_strs (how_it_works a));
          (lit "tech_stack", dump_strs (tech_stack a));
          (lit "getting_started", dump_strs (getting_started a));
          (lit "next_steps", dump_strs (next_steps a));
          (lit "glossary", PList (map dump_glossary_item (glossary a))) ].

(** The declared field set of [RepositoryAnalysis]. *)
Definition declared_fields : list str :=
  [ lit "project_summary"; lit "how_it_helps_people"; lit "main_features";
    lit "how_it_works"; lit "tech_stack"; lit "getting_started";
    lit "next_steps"; lit "glossary" ].

End models.

(* ===================================================================== *)
(** * pdf_generator.py *)
(* ===================================================================== *)

Module pdf_generator.
Import models.

(** The FPDF object is the record of the drawing calls made on it, in
    order, together with its page counter.  FPDF's serializer turns that
    record into the bytes of the file; the calls FPDF issues by itself when
    a page overflows are its own and not part of the record. *)
Inductive Call : Type :=
| SetAutoPageBreak (auto : bool) (margin : Z)
| SetFont (family style : string) (size : Z)
| SetTextColor (r g b : Z)
| SetY (y : Z)
| Cell (w h : Z) (txt : str) (ln : bool) (align : string)
| MultiCell (w h : Z) (txt : str)
| Ln (h : Z).

Record FPDF : Type := { page : Z; calls : list Call }.

Definition PDF := state FPDF.

Definition call (c : Call) : PDF unit :=
  modify (fun pdf => {| page := page pdf; calls := calls pdf ++ [c] |}) ;; ret tt.

Definition page_no : PDF Z := gets page.

(** [for x in l: body(x)] *)
Fixpoint for_ {A : Type} (l : list A) (body : A -> PDF unit) : PDF unit :=
  match l with
  | [] => ret tt
  | x :: l' => body x ;; for_ l' body
  end.

Definition when (b : bool) (body : PDF unit) : PDF unit := if b then body else ret tt.

(** ** class AnalysisPDF *)

Definition header : PDF unit :=
  call (SetFont "Helvetica" "B" 16) ;;
  call (SetTextColor 40 40 40) ;;
  call (Cell 0 10 (lit "Gitalyzer Report") true "C") ;;
  call (Ln 4).

Definition footer : PDF unit :=
  call (SetY (-15)) ;;
  call (SetFont "Helvetica" "" 8) ;;
  call (SetTextColor 120 120 120) ;;
  n <- page_no ;;
  call (Cell 0 10 (lit "Page " ++ of_Z n) false "C").

(** [AnalysisPDF()] *)
Definition AnalysisPDF : FPDF := {| page := 0; calls := [] |}.

(** [FPDF.add_page]: close the current page with the footer, open the
    next one and draw the header on it. *)
Definition add_page : PDF unit :=
  n <- page_no ;;
  when (0 <? n)%Z footer ;;
  modify (fun pdf => {| page := page pdf + 1; calls := calls pdf |}) ;;
  header.

(** [FPDF.output(dest="S")] first closes the document: a page is added
    if there is none, and the last page gets its footer. *)
Definition close : PDF unit :=
  n <- page_no ;;
  when (n =? 0)%Z add_page ;;
  footer.

Definition _write_section (title : string) (body : option str) : PDF unit :=
  call (SetFont "Helvetica" "B" 13) ;;
  call (SetTextColor 40 40 40) ;;
  call (MultiCell 0 8 (lit title)) ;;
  call (Ln 1) ;;
  match body with
  | Some (c :: b) =>
      call (SetFont "Helvetica" "" 11) ;;
      call (SetTextColor 10 10 10) ;;
      call (MultiCell 0 6 (c :: b)) ;;
      call (Ln 2)
  | _ => ret tt
  end.

(** The bullet prefix of the source, three characters and a space; its
    second character, U+20AC, is outside Latin-1. *)
Definition bullet : str := [226; 8364; 162; 32]%N.

Definition _write_list (items : list str) : PDF unit :=
  call (SetFont "Helvetica" "" 11) ;;
  call (SetTextColor 10 10 10) ;;
  for_ items (fun item => call (MultiCell 0 6 (bullet ++ item))) ;;
  call (Ln 2).

(** The text a call puts on the page, if any. *)
Definition text_of (c : Call) : option str :=
  match c with
  | Cell _ _ txt _ _ => Some txt
  | MultiCell _ _ txt => Some txt
  | _ => None
  end.

Fixpoint texts (cs : list Call) : list str :=
  match cs with
  | [] => []
  | c :: cs' => match text_of c with Some t => t :: texts cs' | None => texts cs' end
  end.

(** [.encode("latin-1")] of the serialized document, which carries every
    text that was drawn: it raises as soon as one of them has a character
    outside Latin-1. *)
Definition encode_latin1 (pdf : FPDF) : Result (list Call) :=
  if forallb (forallb is_latin1) (texts (calls pdf)) then ret (calls pdf)
  else raise (UnicodeEncodeError (lit "'latin-1' codec can't encode character")).

(** Lines 48 to 94: every call made on the FPDF object, the closing of
    the document by [output] included.  The argument is
    [payload.analysis.model_dump()], the dictionary of a validated
    [RepositoryAnalysis]: every [analysis.get(k)] finds the field [k] with
    the type the model declares. *)
Definition render (repo_name : str) (analysis : RepositoryAnalysis) : PDF unit :=
  call (SetAutoPageBreak true 15) ;;
  add_page ;;

  call (SetFont "Helvetica" "B" 18) ;;
  call (Cell 0 12 (opt_or (Some repo_name) (lit "Repository Report")) true "") ;;
  call (Ln 4) ;;

  let summary := project_summary analysis in
  when (nonempty summary)
    (_write_section "Project Summary" (Some summary)) ;;

  _write_section "How it helps people" (Some (how_it_helps_people analysis)) ;;

  when (some (main_features analysis))
    (_write_section "Main features" None ;;
     _write_list (main_features analysis)) ;;

  when (some (how_it_works analysis))
    (_write_section "How it works" None ;;
     _write_list (how_it_works analysis)) ;;

  when (some (tech_stack analysis))
    (_write_section "Tech explained simply" None ;;
     _write_list (tech_stack analysis)) ;;

  when (some (getting_started analysis))
    (_write_section "Getting started" None ;;
     _write_list (getting_started analysis)) ;;

  when (some (next_steps analysis))
    (_write_section "Next steps" None ;;
     _write_list (next_steps analysis)) ;;

  let glossary := glossary analysis in
  when (some glossary)
    (_write_section "Glossary" None ;;
     for_ glossary (fun entry =>
       when (nonempty (term entry) && nonempty (definition entry))
         (call (SetFont "Helvetica" "B" 11) ;;
          call (MultiCell 0 6 (term entry)) ;;
          call (SetFont "Helvetica" "" 11) ;;
          call (MultiCell 0 6 (definition entry)) ;;
          call (Ln 1)))) ;;

  close.

(** The result stands for the bytes of the file: the drawing calls it is
    serialized from. *)
Definition build_pdf (repo_name : str) (analysis : RepositoryAnalysis) : Result (list Call) :=
  encode_latin1 (execState (render repo_name analysis) AnalysisPDF).

End pdf_generator.

(* ===================================================================== *)
(** * main.py: the endpoints *)
(* ===================================================================== *)

Module main.
Import models.

(** One [f"  - {message} ({date})"] line.  [item.get('message', '')] is
    [None] when the key is bound to [None], and [None] has no [strip]. *)
Definition commit_line (item : list (str * option str)) : Result str :=
  message <- match dict_get (lit "message") item with
             | None => ret []
             | Some (Some m) => ret m
             | Some None => raise (no_attribute PNone "strip")
             end ;;
  let date := match dict_get (lit "date") item with
              | None => lit "unknown date"
              | Some d => fmt_opt d
              end in
  ret (lit "  - " ++ strip message ++ lit " (" ++ date ++ lit ")").

Definition newline : str := [10%N].

Definition _build_context (repo : RepositoryInfo) : Result str :=
  let languages_line :=
    join (lit ", ")
         (map (fun entry => fst entry ++ lit " (" ++ of_Z (snd entry) ++ lit ")")
              (languages repo)) in
  lines <- for_each commit_line (recent_commits repo) ;;
  let commits_lines := join newline lines in
  ret (lit "Repository: "
         ++ fmt_opt (match full_name repo with
                     | Some (c :: s) => Some (c :: s)
                     | _ => name repo
                     end) ++ newline
       ++ lit "Description: " ++ opt_or (description repo) (lit "No description provided.") ++ newline
       ++ lit "Primary language: " ++ opt_or (language repo) (lit "Unknown") ++ newline
       ++ lit "Languages: " ++ opt_or (Some languages_line) (lit "Not reported") ++ newline
       ++ lit "Stars: " ++ of_Z (stars repo) ++ lit ", Forks: " ++ of_Z (forks repo)
       ++ lit ", Open issues: " ++ of_Z (open_issues repo) ++ newline
       ++ lit "Topics: " ++ (if some (topics repo) then join (lit ", ") (topics repo) else lit "None")
       ++ newline
       ++ lit "Default branch: " ++ opt_or (default_branch repo) (lit "main") ++ newline
       ++ lit "Recent commits:" ++ newline
       ++ opt_or (Some commits_lines) (lit "  - No recent commits retrieved.") ++ newline
       ++ lit "README excerpt:" ++ newline
       ++ opt_or (readme_excerpt repo) (lit "No README available.")).

Record AnalyzeRequest : Type :=
  { repo_url : str; api_key : option str; model : option str }.

(** [raw_response]: the text the model sent, or the diagnostic
    [f"AI call failed: {exc}"]. *)
Inductive RawResponse : Type :=
| ModelText (message : str)
| AICallFailed (exc : Exn).

Record AnalyzeResponse : Type :=
  { repository : RepositoryInfo;
    analysis : RepositoryAnalysis;
    used_ai : bool;
    raw_response : option RawResponse }.

(** What the client of an endpoint receives: the JSON body, the
    [HTTPException] the handler raised (its detail is the text of [cause],
    after the prefix ["Failed to parse analysis: "] for status 500), or
    the framework's answer to an exception no handler caught. *)
Inductive HttpResult (A : Type) : Type :=
| Responded (body : A)
| HTTPException (status : Z) (cause : Exn)
| Unhandled (exc : Exn).
Arguments Responded {A} body.
Arguments HTTPException {A} status cause.
Arguments Unhandled {A} exc.

Definition status_of {A : Type} (r : HttpResult A) : Z :=
  match r with
  | Responded _ => 200
  | HTTPException status _ => status
  | Unhandled _ => 500
  end.

Section Endpoints.

Variable client_get : str -> list (str * Z) -> Result github_client.Response.
Variable json_loads : str -> Result pyval.
Variable b64decode : str -> Result (list N).
Variable decode_utf8_ignore : list N -> str.
Variable chat_completion : str -> str -> list (str * str) -> Result (option str).
(** [RepositoryInfo.model_validate], applied to the snapshot. *)
Variable validate_repository_info : pyval -> Result RepositoryInfo.

(** Lines 128 to 158 of the handler: from the context to the response. *)
Definition narrate (payload : AnalyzeRequest) (repo_info : RepositoryInfo)
    (context : str) : HttpResult AnalyzeResponse :=
  let '(result, used_ai, raw_response) :=
    match api_key payload with
    | Some (c :: k) =>
        let model := opt_or (model payload) (lit "gpt-4o-mini") in
        match ai_agent.call_ai_agent chat_completion json_loads context (c :: k) model with
        | inr (result, raw_response) => (result, true, Some (ModelText raw_response))
        | inl exc =>
            (ai_agent.generate_rule_based_summary context, false, Some (AICallFailed exc))
        end
    | _ => (ai_agent.generate_rule_based_summary context, false, None)
    end in
  match model_validate result with
  | inl exc => HTTPException 500 exc
  | inr analysis =>
      Responded {| repository := repo_info; analysis := analysis;
                   used_ai := used_ai; raw_response := raw_response |}
  end.

Definition analyze_repository (payload : AnalyzeRequest) : HttpResult AnalyzeResponse :=
  match github_client.extract_owner_repo (repo_url payload) with
  | inl (ValueError msg) => HTTPException 400 (ValueError msg)
  | inl exc => Unhandled exc
  | inr (owner, repo) =>
      match github_client.fetch_repository_snapshot
              client_get json_loads b64decode decode_utf8_ignore owner repo with
      | inl (GitHubAPIError msg) => HTTPException 502 (GitHubAPIError msg)
      | inl exc => Unhandled exc
      | inr snapshot =>
          match validate_repository_info snapshot with
          | inl exc => Unhandled exc
          | inr repo_info =>
              match _build_context repo_info with
              | inl exc => Unhandled exc
              | inr context => narrate payload repo_info context
              end
          end
      end
  end.

End Endpoints.

Record PdfRequest : Type := { repo_name : str; pdf_analysis : RepositoryAnalysis }.

(** The stream and the name in its [Content-Disposition] header. *)
Definition generate_pdf (payload : PdfRequest)
    : HttpResult (list pdf_generator.Call * str) :=
  match pdf_generator.build_pdf (repo_name payload) (pdf_analysis payload) with
  | inl exc => Unhandled exc
  | inr pdf_bytes =>
      Responded (pdf_bytes,
                 opt_or (Some (repo_name payload)) (lit "repository") ++ lit "-gitalyzer.pdf")
  end.

Definition analysis_schema : list (str * str) := config.ANALYSIS_FIELDS.

End main.

(* ===================================================================== *)
(** * Vocabulary of the statements *)
(* ===================================================================== *)

Import github_client ai_agent models pdf_generator main.

(** ** URLs *)

(** The slash, the repository name a path segment denotes, and the URL
    variants of one repository. *)
Definition slash : char := 47%N.

Definition repo_name_of (segment : str) : str :=
  if endswith (lit ".git") segment then drop_last 4 segment else segment.

Definition url_variant (prefix owner repo : str) (dot_git trailing_slash : bool) : str :=
  prefix ++ github_client.marker ++ owner ++ [slash] ++ repo
  ++ (if dot_git then lit ".git" else [])
  ++ (if trailing_slash then [slash] else []).

Definition url_with_path (prefix owner segment extra : str) : str :=
  prefix ++ github_client.marker ++ owner ++ [slash] ++ segment ++ [slash] ++ extra.

(** ** Provider responses and stand-ins for the collaborators *)

(** [repo_data.get("license")] *)
Definition license_of (repo_data : list (str * pyval)) : pyval :=
  match dict_get (lit "license") repo_data with Some x => x | None => PNone end.

(** A provider that knows no repository, and one that serves the metadata
    of a single repository and nothing else. *)
Definition not_found : Response := {| status_code := 404; text := lit "Not Found" |}.

Definition get_not_found (url : str) (params : list (str * Z)) : Result Response :=
  inr not_found.

Definition get_only_metadata (url : str) (params : list (str * Z)) : Result Response :=
  if PyStr.eqb url (repo_url_of (lit "octocat") (lit "hello-world"))
  then inr {| status_code := 200; text := lit "{}" |}
  else inr not_found.

(** Collaborators for the examples: a provider that answers every call
    with status 200 and the body [{}], the fragment of [json.loads] on
    that body, a README decoder that is never reached, and the
    [RepositoryInfo] pydantic builds from the resulting snapshot. *)
Definition get_empty_object (url : str) (params : list (str * Z))
    : Result github_client.Response :=
  inr {| github_client.status_code := 200; github_client.text := lit "{}" |}.

Definition loads_empty_object (s : str) : Result pyval :=
  if PyStr.eqb s (lit "{}") then inr (PDict [])
  else inl (JSONDecodeError (lit "Expecting value")).

Definition b64decode_none (s : str) : Result (list N) := inr [].

Definition decode_none (b : list N) : str := [].

Definition bare_info : RepositoryInfo :=
  {| name := None; full_name := None; description := None; html_url := None;
     default_branch := None; license := None; stars := 0; forks := 0;
     open_issues := 0; watchers := 0; language := None; topics := [];
     languages := []; recent_commits := []; readme_excerpt := Some [] |}.

Definition validate_bare (snapshot : pyval) : Result RepositoryInfo := inr bare_info.

(** A model that answers [{}], and one whose call fails. *)
Definition chat_empty_object (key model : str) (messages : list (str * str))
    : Result (option str) := inr (Some (lit "{}")).

Definition chat_unauthorized (key model : str) (messages : list (str * str))
    : Result (option str) := inl (OpenAIError (lit "Incorrect API key provided")).

Definition keyed_request : AnalyzeRequest :=
  {| repo_url := lit "https://github.com/octocat/hello-world";
     api_key := Some (lit "sk-demo");
     model := None |}.

Definition messages_for (context : str) : list (str * str) :=
  [ (lit "system", config.SYSTEM_PROMPT);
    (lit "user", ai_agent._build_user_prompt context) ].

(** ** Narratives and their validation *)

(** [summary[k]] for the dictionary the fallback returns. *)
Definition field (k : string) (summary : pyval) : option pyval :=
  match summary with
  | PDict d => dict_get (lit k) d
  | _ => None
  end.

Definition description_line : str := lit "Description: Foo bar.".

Definition languages_line : str := lit "Languages: Python (900), Go (100)".

(** A context with two description lines. *)
Definition two_descriptions : str :=
  lit "Description: Another project." ++ [10%N]
  ++ description_line ++ [10%N]
  ++ languages_line.

Definition plain_context : str := description_line ++ [10%N] ++ languages_line.

Definition scalar_fields : list str :=
  [ lit "project_summary"; lit "how_it_helps_people" ].

Definition list_fields : list str :=
  [ lit "main_features"; lit "how_it_works"; lit "tech_stack";
    lit "getting_started"; lit "next_steps"; lit "glossary" ].

Definition is_list (v : pyval) : bool :=
  match v with PList _ => true | _ => false end.

Definition is_str (v : pyval) : bool :=
  match v with PStr _ => true | _ => false end.

Definition rejected (obj : pyval) : Prop :=
  exists errors, model_validate obj = inl (ValidationError errors).

(** An object with the two required fields and one field more. *)
Definition with_extra_field : pyval :=
  PDict [ (lit "project_summary", PStr (lit "A tool."));
          (lit "how_it_helps_people", PStr (lit "It saves time."));
          (lit "confidence", PInt 7) ].

(** ** Contexts *)

Definition no_linebreak (s : str) : bool := forallb (fun c => negb (is_linebreak c)) s.

(** [repo.full_name or repo.name], as the f-string prints it. *)
Definition label_of (repo : RepositoryInfo) : str :=
  fmt_opt (match full_name repo with
           | Some (c :: s) => Some (c :: s)
           | _ => name repo
           end).

(** [repo.description or 'No description provided.'] *)
Definition description_value (repo : RepositoryInfo) : str :=
  opt_or (description repo) (lit "No description provided.").

Definition missing_headline : str :=
  lit "This repository does not include a description on GitHub.".

(** A snapshot whose description is a single space. *)
Definition blank_description : RepositoryInfo :=
  {| name := Some (lit "hello-world"); full_name := Some (lit "octocat/hello-world");
     description := Some (lit " "); html_url := None; default_branch := None;
     license := None; stars := 0; forks := 0; open_issues := 0; watchers := 0;
     language := None; topics := []; languages := []; recent_commits := [];
     readme_excerpt := None |}.

(** A snapshot with a one-line description and one commit. *)
Definition described_repo : RepositoryInfo :=
  {| name := Some (lit "hello-world"); full_name := Some (lit "octocat/hello-world");
     description := Some (lit "My first repository."); html_url := None;
     default_branch := Some (lit "main"); license := None;
     stars := 12; forks := 3; open_issues := 0; watchers := 1;
     language := Some (lit "Python"); topics := [lit "demo"];
     languages := [(lit "Python", 900%Z)];
     recent_commits := [[(lit "message", Some (lit "Initial commit")); (lit "date", None)]];
     readme_excerpt := None |}.

(** ** Documents *)

(** [appends p n n' w]: run on page [n], the program [p] adds the calls [w]
    to the record and leaves the counter at [n']. *)
Definition appends (p : PDF unit) (n n' : Z) (w : list Call) : Prop :=
  forall cs, execState p {| page := n; calls := cs |} = {| page := n'; calls := cs ++ w |}.

Definition header_calls : list Call :=
  [ SetFont "Helvetica" "B" 16; SetTextColor 40 40 40;
    Cell 0 10 (lit "Gitalyzer Report") true "C"; Ln 4 ].

Definition footer_calls (n : Z) : list Call :=
  [ SetY (-15); SetFont "Helvetica" "" 8; SetTextColor 120 120 120;
    Cell 0 10 (lit "Page " ++ of_Z n) false "C" ].

Definition heading_calls (title : string) : list Call :=
  [ SetFont "Helvetica" "B" 13; SetTextColor 40 40 40; MultiCell 0 8 (lit title); Ln 1 ].

Definition body_calls (body : str) : list Call :=
  match body with
  | [] => []
  | _ => [ SetFont "Helvetica" "" 11; SetTextColor 10 10 10; MultiCell 0 6 body; Ln 2 ]
  end.

Definition list_calls (items : list str) : list Call :=
  [ SetFont "Helvetica" "" 11; SetTextColor 10 10 10 ]
  ++ map (fun item => MultiCell 0 6 (bullet ++ item)) items ++ [ Ln 2 ].

Definition entry_calls (entry : GlossaryItem) : list Call :=
  [ SetFont "Helvetica" "B" 11; MultiCell 0 6 (term entry);
    SetFont "Helvetica" "" 11; MultiCell 0 6 (definition entry); Ln 1 ].

Definition renderable (entry : GlossaryItem) : bool :=
  nonempty (term entry) && nonempty (definition entry).

Definition list_section (title : string) (items : list str) : list Call :=
  if some items then heading_calls title ++ list_calls items else [].

Definition glossary_section (entries : list GlossaryItem) : list Call :=
  if some entries
  then heading_calls "Glossary"
       ++ flat_map (fun e => if renderable e then entry_calls e else []) entries
  else [].

(** Everything [render] draws before the glossary. *)
Definition front_calls (repo_name : str) (a : RepositoryAnalysis) : list Call :=
  [SetAutoPageBreak true 15] ++ header_calls
  ++ [ SetFont "Helvetica" "B" 18;
       Cell 0 12 (opt_or (Some repo_name) (lit "Repository Report")) true "";
       Ln 4 ]
  ++ (if nonempty (project_summary a)
      then heading_calls "Project Summary" ++ body_calls (project_summary a) else [])
  ++ (heading_calls "How it helps people" ++ body_calls (how_it_helps_people a))
  ++ list_section "Main features" (main_features a)
  ++ list_section "How it works" (how_it_works a)
  ++ list_section "Tech explained simply" (tech_stack a)
  ++ list_section "Getting started" (getting_started a)
  ++ list_section "Next steps" (next_steps a).

Definition empty_analysis : RepositoryAnalysis :=
  {| project_summary := []; how_it_helps_people := []; main_features := [];
     how_it_works := []; tech_stack := []; getting_started := [];
     next_steps := []; glossary := [] |}.




(** ** URLs that the parser refuses or misreads *)

(** A URL that stops after the owner, and one that stops at the domain. *)
Definition url_without_repo (prefix owner : str) (trailing_slash : bool) : str :=
  prefix ++ github_client.marker ++ owner ++ (if trailing_slash then [slash] else []).

Definition url_of_domain (scheme : str) (trailing_slash : bool) : str :=
  scheme ++ lit "://github.com" ++ (if trailing_slash then [slash] else []).

(** ** Snapshots *)

(** The keys of a snapshot, in the order the fetcher writes them. *)
Definition snapshot_keys : list str :=
  [ lit "name"; lit "full_name"; lit "description"; lit "html_url";
    lit "default_branch"; lit "license"; lit "stars"; lit "forks";
    lit "open_issues"; lit "watchers"; lit "language"; lit "topics";
    lit "languages"; lit "recent_commits"; lit "readme_excerpt" ].

(** A commit as the fetcher keeps it: a message and a date, nothing else. *)
Definition is_commit_summary (v : pyval) : Prop :=
  exists message date, v = PDict [(lit "message", message); (lit "date", date)].

(** A provider whose languages call breaks, after serving the metadata. *)
Definition get_languages_timeout (url : str) (params : list (str * Z)) : Result Response :=
  if PyStr.eqb url (repo_url_of (lit "octocat") (lit "hello-world"))
  then inr {| status_code := 200; text := lit "{}" |}
  else inl (HTTPError (lit "timed out")).

(** A README payload in another encoding, and a base64 decoder that
    accepts nothing. *)
Definition loads_plain_readme (s : str) : Result pyval :=
  inr (PDict [ (lit "encoding", PStr (lit "none")); (lit "content", PStr (lit "hello")) ]).

Definition b64decode_fails (s : str) : Result (list N) :=
  inl (BinasciiError (lit "Incorrect padding")).

(** ** Validated narratives *)

(** A list field of a validated narrative against the value it was read
    from: the field was absent and the list is empty, or the value is the
    list of exactly these strings. *)
Definition read_strs (v : option pyval) (l : list str) : Prop :=
  (v = None /\ l = []) \/ v = Some (dump_strs l).

(** A glossary item against the value it was read from: a dictionary
    whose term and definition are these strings. *)
Definition read_item (v : pyval) (entry : GlossaryItem) : Prop :=
  exists d, v = PDict d
            /\ dict_get (lit "term") d = Some (PStr (term entry))
            /\ dict_get (lit "definition") d = Some (PStr (definition entry)).

Definition read_glossary (v : option pyval) (entries : list GlossaryItem) : Prop :=
  (v = None /\ entries = [])
  \/ exists items, v = Some (PList items) /\ Forall2 read_item items entries.

Definition sample_narrative : RepositoryAnalysis :=
  {| project_summary := lit "A tool."; how_it_helps_people := lit "It saves time.";
     main_features := [lit "Fast"; lit "Small"]; how_it_works := [];
     tech_stack := [lit "Python"]; getting_started := []; next_steps := [];
     glossary := [ {| term := lit "Commit"; definition := lit "A saved change." |} ] |}.

(** ** The lines of a context *)

(** A commit summary that binds [message] to [None]. *)
Definition null_message (item : list (str * option str)) : bool :=
  match dict_get (lit "message") item with
  | Some None => true
  | _ => false
  end.

(** [repo.language or 'Unknown'] *)
Definition language_value (repo : RepositoryInfo) : str :=
  opt_or (language repo) (lit "Unknown").

(** [languages_line or 'Not reported'] *)
Definition languages_value (repo : RepositoryInfo) : str :=
  opt_or (Some (join (lit ", ")
                  (map (fun entry => fst entry ++ lit " (" ++ of_Z (snd entry) ++ lit ")")
                       (languages repo))))
         (lit "Not reported").

Definition two_language_repo : RepositoryInfo :=
  {| name := Some (lit "hello-world"); full_name := Some (lit "octocat/hello-world");
     description := Some (lit "My first repository."); html_url := None;
     default_branch := None; license := None;
     stars := 3; forks := 1; open_issues := 0; watchers := 3;
     language := Some (lit "Python"); topics := [lit "demo"];
     languages := [(lit "Python", 900%Z); (lit "Go", 100%Z)];
     recent_commits := []; readme_excerpt := None |}.

(** ** Requests and replies *)

(** A request without a key. *)
Definition keyless_request : AnalyzeRequest :=
  {| repo_url := lit "https://github.com/octocat/hello-world";
     api_key := None;
     model := None |}.

(** A request whose URL names no GitHub repository. *)
Definition foreign_request : AnalyzeRequest :=
  {| repo_url := lit "https://example.org/octocat/hello-world";
     api_key := Some (lit "sk-demo");
     model := None |}.

(** [json.dumps(s)] for a text without characters to escape. *)
Definition quoted (s : string) : str := [34%N] ++ lit s ++ [34%N].

(** A reply that carries the two required fields, the fragment of
    [json.loads] on that reply and on [{}], and a model that sends it. *)
Definition short_narrative_json : str :=
  lit "{" ++ quoted "project_summary" ++ lit ": " ++ quoted "A tool." ++ lit ", "
  ++ quoted "how_it_helps_people" ++ lit ": " ++ quoted "It saves time." ++ lit "}".

Definition short_narrative : RepositoryAnalysis :=
  {| project_summary := lit "A tool."; how_it_helps_people := lit "It saves time.";
     main_features := []; how_it_works := []; tech_stack := [];
     getting_started := []; next_steps := []; glossary := [] |}.

Definition loads_short_narrative (s : str) : Result pyval :=
  if PyStr.eqb s short_narrative_json
  then inr (PDict [ (lit "project_summary", PStr (lit "A tool."));
                    (lit "how_it_helps_people", PStr (lit "It saves time.")) ])
  else if PyStr.eqb s (lit "{}") then inr (PDict [])
  else inl (JSONDecodeError (lit "Expecting value")).

Definition chat_short_narrative (key model : str) (messages : list (str * str))
    : Result (option str) := inr (Some short_narrative_json).

(** The statuses the analysis endpoint can answer with. *)
Definition analyze_statuses : list Z := [200; 400; 500; 502]%Z.

(** ** Texts on the page *)

(** The items [_write_list] would draw, over the five list sections. *)
Definition bullet_items (a : RepositoryAnalysis) : list str :=
  main_features a ++ how_it_works a ++ tech_stack a ++ getting_started a ++ next_steps a.

(** The term and the definition of the glossary entries that are drawn. *)
Definition glossary_texts (entries : list GlossaryItem) : list str :=
  flat_map (fun e => [term e; definition e]) (filter renderable entries).



Definition encode_error : Exn :=
  UnicodeEncodeError (lit "'latin-1' codec can't encode character").

Definition one_feature : RepositoryAnalysis :=
  {| project_summary := lit "A tool."; how_it_helps_people := lit "It saves time.";
     main_features := [lit "Fast"]; how_it_works := []; tech_stack := [];
     getting_started := []; next_steps := []; glossary := [] |}.


(* ===================================================================== *)
(** * Facts about the string methods *)
(* ===================================================================== *)

Section StrFacts.

Implicit Types (s a b p t cur : str) (c : char) (P : char -> bool).

Lemma startswith_app p s : startswith p (p ++ s) = true.
Proof. induction p as [|x p IH]; cbn; [reflexivity|]. now rewrite N.eqb_refl. Qed.

Lemma startswith_inv p s : startswith p s = true -> exists r, s = p ++ r.
Proof.
  revert s. induction p as [|x p IH]; intros s H; cbn in *.
  - now exists s.
  - destruct s as [|y s]; [discriminate|].
    apply andb_true_iff in H as [Hxy Hp]. apply N.eqb_eq in Hxy as ->.
    destruct (IH _ Hp) as [r ->]. now exists r.
Qed.

Lemma contains_app_r sub a b : contains sub b = true -> contains sub (a ++ b) = true.
Proof.
  intros H. induction a as [|x a IH]; cbn; [exact H|].
  rewrite IH. apply orb_true_r.
Qed.

Lemma contains_here sub b : contains sub (sub ++ b) = true.
Proof.
  destruct (sub ++ b) eqn:E; cbn; rewrite <- E, startswith_app; reflexivity.
Qed.

Lemma contains_tail sub c s : contains sub (c :: s) = false -> contains sub s = false.
Proof. cbn [contains]. intros H. now apply orb_false_iff in H. Qed.

(** No occurrence in a text, none in its prefixes. *)
Lemma contains_prefix sub a b :
  sub <> [] -> contains sub (a ++ b) = false -> contains sub a = false.
Proof.
  intros Hsub. induction a as [|x a IH]; intros H.
  - destruct sub; [congruence | reflexivity].
  - cbn [app contains] in *. apply orb_false_iff in H as [Hs Hc].
    rewrite (IH Hc), orb_false_r.
    destruct (startswith sub (x :: a)) eqn:E; [|reflexivity].
    destruct (startswith_inv _ _ E) as [r Hr].
    change (x :: a ++ b) with ((x :: a) ++ b) in Hs.
    rewrite Hr, <- app_assoc, startswith_app in Hs. discriminate.
Qed.

(** ** [strip] and [rstrip] *)

Lemma rstrip_with_keep P c s : P c = false -> rstrip_with P (c :: s) = c :: rstrip_with P s.
Proof. intros H. cbn. rewrite H. now destruct (rstrip_with P s). Qed.

Lemma rstrip_with_app P a c b :
  P c = false -> rstrip_with P (a ++ c :: b) = a ++ c :: rstrip_with P b.
Proof.
  intros H. induction a as [|x a IH]; cbn [app].
  - now apply rstrip_with_keep.
  - cbn [rstrip_with]. rewrite IH. destruct a; reflexivity.
Qed.

Lemma rstrip_with_none P s : (forall c, In c s -> P c = false) -> rstrip_with P s = s.
Proof.
  induction s as [|x s IH]; intros H; [reflexivity|].
  rewrite rstrip_with_keep by (apply H; now left).
  rewrite IH; [reflexivity|]. intros c Hc. apply H. now right.
Qed.

Lemma rstrip_with_cons P c s :
  rstrip_with P s <> [] -> rstrip_with P (c :: s) = c :: rstrip_with P s.
Proof. intros H. cbn. destruct (rstrip_with P s); congruence. Qed.

Lemma rstrip_with_idem P s : rstrip_with P (rstrip_with P s) = rstrip_with P s.
Proof.
  induction s as [|x s IH]; [reflexivity|]. cbn [rstrip_with].
  destruct (rstrip_with P s) as [|y r] eqn:E.
  - destruct (P x) eqn:Hx; [reflexivity|]. cbn. now rewrite Hx.
  - rewrite rstrip_with_cons; rewrite IH; [reflexivity | discriminate].
Qed.

(** What [rstrip] returns is a prefix of its argument. *)
Lemma rstrip_with_prefix P s : exists z, s = rstrip_with P s ++ z.
Proof.
  induction s as [|x s [z IH]]; [now exists []|]. cbn [rstrip_with].
  destruct (rstrip_with P s) as [|y r] eqn:E.
  - destruct (P x); [now exists (x :: s)|]. exists z. cbn in *. now rewrite <- IH.
  - exists z. cbn in *. now rewrite <- IH.
Qed.

Lemma lstrip_with_app P a c b :
  P c = false -> lstrip_with P (a ++ c :: b) = lstrip_with P a ++ c :: b.
Proof.
  intros H. induction a as [|x a IH]; cbn; [now rewrite H|].
  destruct (P x); [exact IH | reflexivity].
Qed.

Lemma strip_keep c s : is_space c = false -> strip (c :: s) = c :: rstrip_with is_space s.
Proof.
  intros H. unfold strip. rewrite rstrip_with_keep by exact H.
  cbn [lstrip_with]. now rewrite H.
Qed.

Lemma strip_space c s : is_space c = true -> strip (c :: s) = strip s.
Proof.
  intros H. unfold strip. cbn [rstrip_with].
  destruct (rstrip_with is_space s) as [|y r] eqn:E; rewrite ?H; cbn [lstrip_with];
    now rewrite ?H.
Qed.

Lemma strip_rstrip s : strip (rstrip_with is_space s) = strip s.
Proof. unfold strip. now rewrite rstrip_with_idem. Qed.

(** ** [split] *)

Lemma split_go_nonempty sep s k cur : split_go sep s k cur <> [].
Proof.
  revert k cur. induction s as [|x s IH]; intros k cur; cbn; [discriminate|].
  destruct k; [|apply IH]. destruct (startswith sep (x :: s)); [discriminate | apply IH].
Qed.

Lemma last_piece_cons x l : l <> [] -> last_piece (x :: l) = last_piece l.
Proof. destruct l; [congruence | reflexivity]. Qed.

(** A text without the separator is a single piece. *)
Lemma split_go_absent sep s cur :
  contains sep s = false -> split_go sep s 0 cur = [cur ++ s].
Proof.
  revert cur. induction s as [|x s IH]; intros cur H; cbn [split_go].
  - now rewrite app_nil_r.
  - cbn [contains] in H. apply orb_false_iff in H as [Hs Hc].
    rewrite Hs, (IH _ Hc), <- app_assoc. reflexivity.
Qed.

(** Cutting at a single character [c]: the text up to its first
    occurrence is the first piece. *)
Lemma split_go_char c a b cur :
  ~ In c a -> split_go [c] (a ++ c :: b) 0 cur = (cur ++ a) :: split_go [c] b 0 [].
Proof.
  revert cur. induction a as [|x a IH]; intros cur H; cbn [app split_go startswith].
  - rewrite N.eqb_refl, app_nil_r. reflexivity.
  - destruct (N.eqb_spec c x) as [->|Hne]; [destruct H; now left|].
    cbn [andb]. rewrite IH, <- app_assoc; [reflexivity|].
    intros Hin. apply H. now right.
Qed.

Lemma split_go_char_absent c a cur : ~ In c a -> split_go [c] a 0 cur = [cur ++ a].
Proof.
  revert cur. induction a as [|x a IH]; intros cur H; cbn [split_go startswith].
  - now rewrite app_nil_r.
  - destruct (N.eqb_spec c x) as [->|Hne]; [destruct H; now left|].
    cbn [andb]. rewrite IH, <- app_assoc; [reflexivity|].
    intros Hin. apply H. now right.
Qed.

(** ** The domain marker *)

(** An occurrence of the marker cannot begin before another one and run
    into it: the marker's first character does not occur again in it. *)
Lemma marker_apart c p t :
  startswith marker (c :: p ++ marker ++ t) = true -> 10 <= List.length p.
Proof.
  intros H.
  do 10 (destruct p as [|? p];
         [ cbn in H; rewrite ?andb_false_r in H; discriminate H |]).
  cbn [List.length]. lia.
Qed.

Lemma split_go_skip sep a s cur :
  split_go sep (a ++ s) (List.length a) cur = split_go sep s 0 cur.
Proof. induction a as [|x a IH]; [reflexivity | exact IH]. Qed.

(** After the last occurrence of the marker comes the last piece. *)
Lemma split_go_marker_last t :
  contains marker t = false ->
  forall p k cur, k <= List.length p ->
    last_piece (split_go marker (p ++ marker ++ t) k cur) = t.
Proof.
  intros Ht. induction p as [|c p IH]; intros k cur Hk.
  - assert (k = 0) as -> by (cbn in Hk; lia).
    cbn [app]. change (marker ++ t) with (103%N :: lit "ithub.com/" ++ t).
    cbn [split_go]. change (103%N :: lit "ithub.com/" ++ t) with (marker ++ t).
    rewrite startswith_app.
    change (List.length marker - 1) with (List.length (lit "ithub.com/")).
    rewrite split_go_skip, (split_go_absent _ _ _ Ht). reflexivity.
  - cbn [app split_go]. destruct k as [|k].
    + destruct (startswith marker (c :: p ++ marker ++ t)) eqn:E.
      * rewrite last_piece_cons by apply split_go_nonempty.
        apply IH. apply marker_apart in E. exact E.
      * apply IH. lia.
    + apply IH. cbn in Hk. lia.
Qed.

Lemma split_marker_last p t :
  contains marker t = false -> last_piece (split marker (p ++ marker ++ t)) = t.
Proof. intros Ht. apply split_go_marker_last; [exact Ht | lia]. Qed.

Lemma rstrip_with_all P s : forallb P s = true -> rstrip_with P s = [].
Proof.
  induction s as [|x s IH]; [reflexivity|]. cbn. intros H.
  apply andb_true_iff in H as [Hx Hs]. now rewrite (IH Hs), Hx.
Qed.

Lemma rstrip_with_app_none P a b :
  (forall c, In c a -> P c = false) -> rstrip_with P (a ++ b) = a ++ rstrip_with P b.
Proof.
  induction a as [|x a IH]; intros H; [reflexivity|]. cbn [app].
  rewrite rstrip_with_keep by (apply H; now left).
  rewrite IH; [reflexivity|]. intros c Hc. apply H. now right.
Qed.

Lemma rstrip_with_head P c s :
  rstrip_with P (c :: s) = [] \/ exists r, rstrip_with P (c :: s) = c :: r.
Proof.
  cbn. destruct (rstrip_with P s); [destruct (P c)|]; eauto.
Qed.

Lemma char_in_false chars c : char_in chars c = false -> ~ In c chars.
Proof.
  unfold char_in. intros H Hin.
  assert (existsb (N.eqb c) chars = true); [|congruence].
  apply existsb_exists. exists c. split; [exact Hin | apply N.eqb_refl].
Qed.

Lemma not_slash_char s c : ~ In slash s -> In c s -> char_in (lit "/") c = false.
Proof.
  intros Hs Hc. cbn. destruct (N.eqb_spec c 47) as [->|]; [contradiction | reflexivity].
Qed.

Lemma endswith_app p s : endswith p (s ++ p) = true.
Proof. unfold endswith. rewrite rev_app_distr. apply startswith_app. Qed.

Lemma drop_last_app s p : drop_last (List.length p) (s ++ p) = s.
Proof.
  unfold drop_last. rewrite length_app, Nat.add_sub, firstn_app, Nat.sub_diag, firstn_all.
  cbn. apply app_nil_r.
Qed.

Lemma contains_domain prefix rest : contains domain (prefix ++ marker ++ rest) = true.
Proof.
  apply contains_app_r. change (marker ++ rest) with (domain ++ slash :: rest).
  apply contains_here.
Qed.

Lemma lstrip_before_marker prefix rest :
  lstrip_with is_space (prefix ++ marker ++ rest)
  = lstrip_with is_space prefix ++ marker ++ rest.
Proof.
  change (marker ++ rest) with (103%N :: lit "ithub.com/" ++ rest).
  now apply lstrip_with_app.
Qed.

(** The path [owner/segment...] after the marker: its first two pieces. *)
Lemma split_path owner segment rest :
  ~ In slash owner -> ~ In slash segment ->
  rest = [] \/ (exists r, rest = slash :: r) ->
  exists more,
    split (lit "/") (owner ++ [slash] ++ segment ++ rest) = owner :: segment :: more.
Proof.
  intros Ho Hs Hrest. unfold split. change (lit "/") with [slash]. cbn [app].
  rewrite (split_go_char slash owner _ [] Ho). cbn [app].
  destruct Hrest as [-> | [r ->]].
  - rewrite app_nil_r, (split_go_char_absent slash segment [] Hs). now exists [].
  - rewrite (split_go_char slash segment r [] Hs). eauto.
Qed.

Lemma extract_from_cleaned url prefix owner segment rest :
  contains domain url = true ->
  rstrip (lit "/") (strip url) = prefix ++ marker ++ owner ++ [slash] ++ segment ++ rest ->
  contains marker (owner ++ [slash] ++ segment ++ rest) = false ->
  ~ In slash owner -> ~ In slash segment ->
  rest = [] \/ (exists r, rest = slash :: r) ->
  extract_owner_repo url = inr (owner, repo_name_of segment).
Proof.
  intros Hdom Hclean Hlast Ho Hs Hrest.
  unfold extract_owner_repo. rewrite Hdom. cbn [negb].
  rewrite Hclean, (split_marker_last _ _ Hlast).
  destruct (split_path owner segment rest Ho Hs Hrest) as [more ->].
  reflexivity.
Qed.

Lemma strip_ends_kept prefix rest c :
  is_space c = false ->
  strip (prefix ++ marker ++ rest ++ [c])
  = lstrip_with is_space prefix ++ marker ++ rest ++ [c].
Proof.
  intros Hc. unfold strip.
  replace (prefix ++ marker ++ rest ++ [c]) with ((prefix ++ marker ++ rest) ++ c :: [])
    by now rewrite <- !app_assoc.
  rewrite (rstrip_with_app _ _ _ _ Hc). cbn [rstrip_with].
  rewrite <- !app_assoc. apply lstrip_before_marker.
Qed.

Lemma nonempty_last (s : str) : s <> [] -> exists s' c, s = s' ++ [c].
Proof.
  intros H. destruct (exists_last H) as [s' [c ->]]. eauto.
Qed.

Lemma rstrip_with_last_kept P s c :
  rstrip_with P (s ++ [c]) = s ++ [c] -> P c = false.
Proof.
  intros H. destruct (P c) eqn:Hc; [|reflexivity].
  assert (Hall : rstrip_with P (s ++ [c]) = rstrip_with P s).
  { clear H. induction s as [|x s IH]; cbn [app rstrip_with].
    - now rewrite Hc.
    - now rewrite IH. }
  rewrite Hall in H. destruct (rstrip_with_prefix P s) as [z Hz].
  rewrite H in Hz. apply (f_equal (@List.length _)) in Hz.
  rewrite !length_app in Hz. cbn in Hz. lia.
Qed.

(** Trimming a URL whose path ends in a character that is neither
    whitespace nor a slash, possibly followed by one slash. *)
Lemma cleaned_url prefix body c (trailing_slash : bool) :
  is_space c = false -> c <> slash ->
  rstrip (lit "/")
    (strip (prefix ++ marker ++ body ++ [c] ++ (if trailing_slash then [slash] else [])))
  = lstrip_with is_space prefix ++ marker ++ body ++ [c].
Proof.
  intros Hc Hslash.
  assert (Hkeep : char_in (lit "/") c = false).
  { cbn. destruct (N.eqb_spec c 47); [contradiction | reflexivity]. }
  assert (Hstrip : strip (prefix ++ marker ++ body ++ [c]
                          ++ (if trailing_slash then [slash] else []))
                   = (lstrip_with is_space prefix ++ marker ++ body)
                     ++ c :: (if trailing_slash then [slash] else [])).
  { destruct trailing_slash.
    - rewrite (app_assoc body), (strip_ends_kept prefix (body ++ [c]) slash eq_refl).
      now rewrite <- !app_assoc.
    - rewrite app_nil_r, (strip_ends_kept prefix body c Hc). now rewrite <- !app_assoc. }
  rewrite Hstrip. unfold rstrip. rewrite (rstrip_with_app _ _ _ _ Hkeep).
  rewrite <- !app_assoc. now destruct trailing_slash.
Qed.

(** ** [splitlines] and the lines of a context *)

Lemma splitlines_go_line a b cur :
  no_linebreak a = true ->
  splitlines_go (a ++ 10%N :: b) cur false = (cur ++ a) :: splitlines_go b [] false.
Proof.
  revert cur. induction a as [|x a IH]; intros cur H.
  - cbn [app]. now rewrite app_nil_r.
  - cbn [no_linebreak forallb] in H. apply andb_true_iff in H as [Hx Ha].
    apply negb_true_iff in Hx.
    cbn [app splitlines_go andb]. rewrite Hx, (IH _ Ha), <- app_assoc. reflexivity.
Qed.

Lemma no_linebreak_app a b :
  no_linebreak a = true -> no_linebreak b = true -> no_linebreak (a ++ b) = true.
Proof. unfold no_linebreak. intros Ha Hb. now rewrite forallb_app, Ha, Hb. Qed.

(** The first two lines of a context. *)
Lemma splitlines_context label value rest :
  no_linebreak label = true -> no_linebreak value = true ->
  splitlines (lit "Repository: " ++ label ++ newline
              ++ lit "Description: " ++ value ++ newline ++ rest)
  = (lit "Repository: " ++ label) :: (lit "Description: " ++ value)
    :: splitlines_go rest [] false.
Proof.
  intros Hl Hv. unfold splitlines, newline.
  rewrite (app_assoc (lit "Repository: ")). cbn [app].
  rewrite splitlines_go_line by (apply no_linebreak_app; [reflexivity | exact Hl]).
  rewrite (app_assoc (lit "Description: ")).
  rewrite splitlines_go_line by (apply no_linebreak_app; [reflexivity | exact Hv]).
  reflexivity.
Qed.

Lemma label_chars_kept c : In c (lit "Description:") -> is_space c = false.
Proof.
  intros H. cbn in H.
  repeat (destruct H as [<-|H]; [reflexivity|]). destruct H.
Qed.

Lemma strip_description_line value :
  strip (lit "Description: " ++ value)
  = lit "Description:" ++ rstrip_with is_space (32%N :: value).
Proof.
  change (lit "Description: " ++ value) with (lit "Description:" ++ 32%N :: value).
  unfold strip. rewrite (rstrip_with_app_none _ _ _ label_chars_kept). reflexivity.
Qed.

Lemma find_description r1 x more :
  find (startswith (lit "Description:"))
       (filter nonempty ((82%N :: r1) :: (lit "Description:" ++ x) :: more))
  = Some (lit "Description:" ++ x).
Proof.
  assert (H1 : startswith (lit "Description:") (82%N :: r1) = false) by reflexivity.
  pose proof (startswith_app (lit "Description:") x) as H2.
  change (lit "Description:" ++ x) with (68%N :: lit "escription:" ++ x) in *.
  cbn [filter nonempty find]. now rewrite H1, H2.
Qed.

Lemma split1_description x :
  split1 (lit ":") (lit "Description:" ++ x) = [lit "Description"; x].
Proof. reflexivity. Qed.

Lemma first_value_description label value rest :
  no_linebreak label = true -> no_linebreak value = true ->
  ai_agent.first_value "Description:"
    (ai_agent.context_lines (lit "Repository: " ++ label ++ newline
                             ++ lit "Description: " ++ value ++ newline ++ rest))
  = strip value.
Proof.
  intros Hl Hv. unfold ai_agent.context_lines.
  rewrite (splitlines_context _ _ _ Hl Hv). cbn [map].
  change (lit "Repository: " ++ label) with (82%N :: lit "epository: " ++ label).
  rewrite (strip_keep 82%N _ eq_refl), strip_description_line.
  unfold ai_agent.first_value. rewrite find_description, split1_description.
  cbn [item nth]. rewrite strip_rstrip. now apply strip_space.
Qed.

End StrFacts.

(* ===================================================================== *)
(** * The repository snapshot fetcher *)
(* ===================================================================== *)

(** C5.  Let [owner] and [repo] contain no slash, [repo] be non-empty and
    end neither in whitespace nor in ".git", and the marker "github.com/"
    not occur in "owner/repo.git".  Then every URL made of any prefix (a
    scheme or none, "www." and the like), the marker, [owner], a slash and
    [repo], with or without ".git" and with or without a final slash,
    parses to the same pair [(owner, repo)]. *)
Theorem C5_url_variants_agree (prefix owner repo : str) (dot_git trailing_slash : bool) :
  char_in owner slash = false ->
  char_in repo slash = false ->
  repo <> [] ->
  rstrip_with is_space repo = repo ->
  endswith (lit ".git") repo = false ->
  contains marker (owner ++ [slash] ++ repo ++ lit ".git") = false ->
  extract_owner_repo (url_variant prefix owner repo dot_git trailing_slash)
  = inr (owner, repo).
Proof.
  intros Ho Hr Hne Hclean Hgit Hlast.
  apply char_in_false in Ho. apply char_in_false in Hr.
  set (segment := repo ++ (if dot_git then lit ".git" else [])).
  assert (Hseg_slash : ~ In slash segment).
  { unfold segment. intros Hin. apply in_app_or in Hin as [Hin|Hin]; [now apply Hr|].
    destruct dot_git; cbn in Hin; [|exact Hin].
    repeat (destruct Hin as [Hin|Hin]; [discriminate Hin|]). exact Hin. }
  assert (Hseg_last : exists s' c, segment = s' ++ [c] /\ is_space c = false).
  { unfold segment. destruct dot_git.
    - exists (repo ++ lit ".gi"), 116%N. split; [now rewrite <- app_assoc | reflexivity].
    - rewrite app_nil_r. destruct (nonempty_last repo Hne) as [s' [c ->]].
      exists s', c. split; [reflexivity|]. now apply rstrip_with_last_kept in Hclean. }
  assert (Hseg_name : repo_name_of segment = repo).
  { unfold segment, repo_name_of. destruct dot_git.
    - rewrite endswith_app. apply (drop_last_app repo (lit ".git")).
    - rewrite app_nil_r, Hgit. reflexivity. }
  assert (Hseg_marker : contains marker (owner ++ [slash] ++ segment ++ []) = false).
  { rewrite app_nil_r. unfold segment. destruct dot_git; [exact Hlast|].
    rewrite app_nil_r.
    apply (contains_prefix marker _ (lit ".git")); [discriminate|].
    now rewrite <- !app_assoc. }
  assert (Hurl : url_variant prefix owner repo dot_git trailing_slash
                 = prefix ++ marker ++ (owner ++ [slash] ++ segment)
                   ++ (if trailing_slash then [slash] else [])).
  { unfold url_variant, segment. now rewrite <- !app_assoc. }
  destruct Hseg_last as [s' [c [Hs' Hc]]].
  assert (Hc_slash : c <> slash).
  { intros ->. apply Hseg_slash. rewrite Hs'. apply in_or_app. right. now left. }
  assert (Hcleaned : rstrip (lit "/")
                       (strip (url_variant prefix owner repo dot_git trailing_slash))
                     = lstrip_with is_space prefix ++ marker ++ owner ++ [slash]
                       ++ segment ++ []).
  { rewrite Hurl, Hs', app_nil_r.
    replace (prefix ++ marker ++ (owner ++ [slash] ++ s' ++ [c])
             ++ (if trailing_slash then [slash] else []))
      with (prefix ++ marker ++ (owner ++ [slash] ++ s') ++ [c]
            ++ (if trailing_slash then [slash] else []))
      by (now rewrite <- !app_assoc).
    rewrite (cleaned_url prefix (owner ++ [slash] ++ s') c trailing_slash Hc Hc_slash).
    now rewrite <- !app_assoc. }
  assert (Hdom : contains domain (url_variant prefix owner repo dot_git trailing_slash) = true)
    by (rewrite Hurl; apply contains_domain).
  rewrite (extract_from_cleaned _ (lstrip_with is_space prefix) owner segment []
             Hdom Hcleaned Hseg_marker Ho Hseg_slash (or_introl eq_refl)).
  now rewrite Hseg_name.
Qed.

(** C5 on the longest and the shortest variant of one repository. *)
Lemma C5_url_variants_witness :
  char_in (lit "octocat") slash = false
  /\ char_in (lit "hello-world") slash = false
  /\ lit "hello-world" <> []
  /\ rstrip_with is_space (lit "hello-world") = lit "hello-world"
  /\ endswith (lit ".git") (lit "hello-world") = false
  /\ contains marker (lit "octocat" ++ [slash] ++ lit "hello-world" ++ lit ".git") = false
  /\ extract_owner_repo (lit "https://github.com/octocat/hello-world.git/")
     = inr (lit "octocat", lit "hello-world")
  /\ extract_owner_repo (lit "github.com/octocat/hello-world")
     = inr (lit "octocat", lit "hello-world").
Proof.
  assert (H1 : char_in (lit "octocat") slash = false) by reflexivity.
  assert (H2 : char_in (lit "hello-world") slash = false) by reflexivity.
  assert (H3 : lit "hello-world" <> []) by discriminate.
  assert (H4 : rstrip_with is_space (lit "hello-world") = lit "hello-world") by reflexivity.
  assert (H5 : endswith (lit ".git") (lit "hello-world") = false) by reflexivity.
  assert (H6 : contains marker (lit "octocat" ++ [slash] ++ lit "hello-world" ++ lit ".git")
               = false) by reflexivity.
  repeat (split; [assumption|]). split.
  - exact (C5_url_variants_agree (lit "https://") (lit "octocat") (lit "hello-world")
             true true H1 H2 H3 H4 H5 H6).
  - exact (C5_url_variants_agree [] (lit "octocat") (lit "hello-world")
             false false H1 H2 H3 H4 H5 H6).
Defined.

(** C9.  Take a URL that continues after the second path segment:
    any prefix, the marker "github.com/", [owner], a slash, a non-empty
    [segment], a slash and anything more, where [owner] and [segment] hold
    no slash and the marker does not occur again after the one written.
    The parser succeeds and returns the owner and the repository name of
    the segment (the segment, less a final ".git"): what follows the
    second segment has no influence. *)
Theorem C9_extra_segments_ignored (prefix owner segment extra : str) :
  char_in owner slash = false ->
  char_in segment slash = false ->
  segment <> [] ->
  contains marker (owner ++ [slash] ++ segment ++ [slash] ++ extra) = false ->
  extract_owner_repo (url_with_path prefix owner segment extra)
  = inr (owner, repo_name_of segment).
Proof.
  intros Ho Hs Hne Hlast.
  apply char_in_false in Ho. apply char_in_false in Hs.
  destruct (nonempty_last segment Hne) as [s' [c Hseg]].
  assert (Hc : c <> slash).
  { intros ->. apply Hs. rewrite Hseg. apply in_or_app. right. now left. }
  assert (Hkeep : char_in (lit "/") c = false).
  { cbn. destruct (N.eqb_spec c 47); [contradiction | reflexivity]. }
  set (e1 := rstrip_with is_space extra).
  set (e2 := rstrip_with (char_in (lit "/")) (slash :: e1)).
  assert (Hcleaned : rstrip (lit "/") (strip (url_with_path prefix owner segment extra))
                     = lstrip_with is_space prefix ++ marker ++ owner ++ [slash]
                       ++ segment ++ e2).
  { unfold url_with_path, strip.
    replace (prefix ++ marker ++ owner ++ [slash] ++ segment ++ [slash] ++ extra)
      with ((prefix ++ marker ++ owner ++ [slash] ++ segment) ++ slash :: extra)
      by (now rewrite <- !app_assoc).
    rewrite (rstrip_with_app is_space _ slash extra eq_refl). fold e1.
    rewrite <- !app_assoc, lstrip_before_marker.
    unfold rstrip. rewrite Hseg.
    replace (lstrip_with is_space prefix ++ marker ++ owner ++ [slash]
             ++ (s' ++ [c]) ++ slash :: e1)
      with ((lstrip_with is_space prefix ++ marker ++ owner ++ [slash] ++ s')
            ++ c :: slash :: e1)
      by (now rewrite <- !app_assoc).
    rewrite (rstrip_with_app _ _ c _ Hkeep). fold e2.
    now rewrite <- !app_assoc. }
  assert (He2 : e2 = [] \/ exists r, e2 = slash :: r) by apply rstrip_with_head.
  assert (Hpre : exists z, slash :: extra = e2 ++ z).
  { destruct (rstrip_with_prefix is_space extra) as [z1 Hz1]. fold e1 in Hz1.
    destruct (rstrip_with_prefix (char_in (lit "/")) (slash :: e1)) as [z2 Hz2].
    fold e2 in Hz2. exists (z2 ++ z1).
    rewrite app_assoc, <- Hz2. cbn [app]. now rewrite <- Hz1. }
  assert (Hmarker : contains marker (owner ++ [slash] ++ segment ++ e2) = false).
  { destruct Hpre as [z Hz].
    apply (contains_prefix marker _ z); [discriminate|].
    rewrite <- !app_assoc, <- Hz. exact Hlast. }
  apply (extract_from_cleaned _ (lstrip_with is_space prefix) owner segment e2);
    try assumption.
  unfold url_with_path. apply contains_domain.
Qed.

(** C9 on a URL that points into the tree of a repository. *)
Lemma C9_extra_segments_witness :
  char_in (lit "octocat") slash = false
  /\ char_in (lit "hello-world") slash = false
  /\ lit "hello-world" <> []
  /\ contains marker (lit "octocat" ++ [slash] ++ lit "hello-world" ++ [slash]
                      ++ lit "tree/main/docs/") = false
  /\ extract_owner_repo (lit "https://github.com/octocat/hello-world/tree/main/docs/")
     = inr (lit "octocat", lit "hello-world").
Proof.
  assert (H1 : char_in (lit "octocat") slash = false) by reflexivity.
  assert (H2 : char_in (lit "hello-world") slash = false) by reflexivity.
  assert (H3 : lit "hello-world" <> []) by discriminate.
  assert (H4 : contains marker (lit "octocat" ++ [slash] ++ lit "hello-world" ++ [slash]
                                ++ lit "tree/main/docs/") = false) by reflexivity.
  repeat (split; [assumption|]).
  exact (C9_extra_segments_ignored (lit "https://") (lit "octocat") (lit "hello-world")
           (lit "tree/main/docs/") H1 H2 H3 H4).
Defined.

Section Fetcher.

Variable client_get : str -> list (str * Z) -> Result Response.
Variable json_loads : str -> Result pyval.
Variable b64decode : str -> Result (list N).
Variable decode_utf8_ignore : list N -> str.

Local Abbreviation fetch :=
  (fetch_repository_snapshot client_get json_loads b64decode decode_utf8_ignore).
Local Abbreviation readme := (read_readme json_loads b64decode decode_utf8_ignore).
Local Abbreviation commits := (read_commits json_loads).

Lemma py_get_dict d k default :
  py_get (PDict d) k default
  = inr (match dict_get (lit k) d with Some x => x | None => default end).
Proof. reflexivity. Qed.

(** C4.  When the repository-metadata call answers with a status other
    than 200, the fetch raises [GitHubAPIError] with the status code and
    the response body in its message, whatever the other calls would
    answer.  When it answers 200 with a JSON object, each of the
    languages, README and commits calls that answers with a status
    other than 200 leaves its facet empty (empty mapping, empty string,
    empty sequence), and the fetch returns a snapshot as long as the
    calls that did answer 200 can be read. *)
Theorem C4_fetch_status_policy (owner repo : str) :
  (forall resp,
      client_get (repo_url_of owner repo) [] = inr resp ->
      status_code resp <> 200%Z ->
      fetch owner repo
      = inl (GitHubAPIError (lit "Unable to retrieve repository: "
                             ++ of_Z (status_code resp) ++ lit " " ++ text resp)))
  /\ (forall repo_resp repo_data license_name languages_resp readme_resp commits_resp
             languages_data readme_text commit_list,
        client_get (repo_url_of owner repo) [] = inr repo_resp ->
        status_code repo_resp = 200%Z ->
        json_loads (text repo_resp) = inr (PDict repo_data) ->
        py_get (py_or (license_of repo_data) (PDict [])) "name" PNone = inr license_name ->
        client_get (repo_url_of owner repo ++ lit "/languages") [] = inr languages_resp ->
        client_get (repo_url_of owner repo ++ lit "/readme") [] = inr readme_resp ->
        client_get (repo_url_of owner repo ++ lit "/commits") [(lit "per_page", 5%Z)]
          = inr commits_resp ->
        (status_code languages_resp = 200%Z ->
           json_loads (text languages_resp) = inr languages_data) ->
        (status_code readme_resp = 200%Z -> readme readme_resp = inr readme_text) ->
        (status_code commits_resp = 200%Z -> commits commits_resp = inr commit_list) ->
        exists snapshot,
          fetch owner repo = inr (PDict snapshot)
          /\ dict_get (lit "languages") snapshot
             = Some (if (status_code languages_resp =? 200)%Z
                     then languages_data else PDict [])
          /\ dict_get (lit "readme_excerpt") snapshot
             = Some (PStr (if (status_code readme_resp =? 200)%Z
                           then slice_to 4000 readme_text else []))
          /\ dict_get (lit "recent_commits") snapshot
             = Some (PList (if (status_code commits_resp =? 200)%Z
                            then commit_list else []))).
Proof.
  split.
  - intros resp Hget Hstatus.
    unfold fetch_repository_snapshot. rewrite Hget. cbn.
    destruct (Z.eqb_spec (status_code resp) 200) as [E|E]; [contradiction | reflexivity].
  - intros repo_resp repo_data license_name languages_resp readme_resp commits_resp
           languages_data readme_text commit_list
           Hrepo Hok Hjson Hlicense Hlang Hreadme Hcommits Hl Hr Hc.
    unfold fetch_repository_snapshot.
    rewrite Hrepo. cbn [bind Monad_either].
    rewrite Hok. cbn [Z.eqb Pos.eqb negb].
    unfold json at 1. rewrite Hjson. cbn [bind Monad_either].
    rewrite Hlang, Hreadme, Hcommits. cbn [bind Monad_either].
    unfold json.
    destruct (Z.eqb_spec (status_code languages_resp) 200) as [El|El];
      [rewrite (Hl El)|];
      (destruct (Z.eqb_spec (status_code readme_resp) 200) as [Er|Er];
        [rewrite (Hr Er)|]);
      (destruct (Z.eqb_spec (status_code commits_resp) 200) as [Ec|Ec];
        [rewrite (Hc Ec)|]);
      cbn [bind ret Monad_either];
      rewrite !py_get_dict; cbn [bind ret Monad_either];
      fold (license_of repo_data); rewrite Hlicense;
      (eexists; split; [reflexivity | repeat split; reflexivity]).
Qed.

End Fetcher.

(** C4 on a provider that answers 404 to everything, and on one that
    serves the metadata only. *)
Lemma C4_fetch_status_policy_witness :
  (get_not_found (repo_url_of (lit "octocat") (lit "hello-world")) [] = inr not_found
   /\ status_code not_found <> 200%Z
   /\ fetch_repository_snapshot get_not_found loads_empty_object b64decode_none decode_none
        (lit "octocat") (lit "hello-world")
      = inl (GitHubAPIError (lit "Unable to retrieve repository: 404 Not Found")))
  /\ (status_code not_found = 200%Z -> loads_empty_object (text not_found) = inr PNone)
  /\ exists snapshot,
       fetch_repository_snapshot get_only_metadata loads_empty_object b64decode_none
         decode_none (lit "octocat") (lit "hello-world") = inr (PDict snapshot)
       /\ dict_get (lit "languages") snapshot = Some (PDict [])
       /\ dict_get (lit "readme_excerpt") snapshot = Some (PStr [])
       /\ dict_get (lit "recent_commits") snapshot = Some (PList []).
Proof.
  assert (Hstatus : status_code not_found <> 200%Z) by discriminate.
  assert (Hnever : forall A (x y : A), status_code not_found = 200%Z -> x = y)
    by (intros A x y H; destruct (Hstatus H)).
  split; [|split].
  - split; [reflexivity | split; [exact Hstatus |]].
    exact (proj1 (C4_fetch_status_policy get_not_found loads_empty_object b64decode_none
                    decode_none (lit "octocat") (lit "hello-world"))
                 not_found eq_refl Hstatus).
  - apply Hnever.
  - exact (proj2 (C4_fetch_status_policy get_only_metadata loads_empty_object b64decode_none
                    decode_none (lit "octocat") (lit "hello-world"))
                 {| status_code := 200; text := lit "{}" |} [] PNone
                 not_found not_found not_found PNone [] []
                 eq_refl eq_refl eq_refl eq_refl eq_refl eq_refl eq_refl
                 (Hnever _ _ _) (Hnever _ _ _) (Hnever _ _ _)).
Defined.

(* ===================================================================== *)
(** * The narrative generator and its validation *)
(* ===================================================================== *)

(** C6 as stated fails: this context contains both lines, but an earlier
    description line comes first and is the one lifted. *)
Lemma C6_counterexample :
  In description_line (splitlines two_descriptions)
  /\ In languages_line (splitlines two_descriptions)
  /\ field "project_summary" (ai_agent.generate_rule_based_summary two_descriptions)
     = Some (PStr (lit "Another project."))
  /\ lit "Another project." <> lit "Foo bar.".
Proof.
  repeat split; try (vm_compute; tauto). discriminate.
Qed.

(** C6 (amended).  For every context text whose first line that starts
    with [Description:] is [Description: Foo bar.] and whose first line
    that starts with [Languages:] is [Languages: Python (900), Go (100)]
    (lines taken trimmed, blank ones dropped), the fallback's
    [project_summary] is "Foo bar." and the first entry of its
    [tech_stack] contains "Python". *)
Theorem C6_fallback_lifts_first_lines (context : str) :
  find (startswith (lit "Description:")) (ai_agent.context_lines context) = Some description_line ->
  find (startswith (lit "Languages:")) (ai_agent.context_lines context) = Some languages_line ->
  field "project_summary" (ai_agent.generate_rule_based_summary context)
    = Some (PStr (lit "Foo bar."))
  /\ exists first rest,
       field "tech_stack" (ai_agent.generate_rule_based_summary context)
         = Some (PList (PStr first :: rest))
       /\ contains (lit "Python") first = true.
Proof.
  intros Hd Hl.
  unfold ai_agent.generate_rule_based_summary, ai_agent.first_value.
  rewrite Hd, Hl. split; [reflexivity|].
  eexists; eexists. split; [reflexivity|]. reflexivity.
Qed.

(** C6 (amended) on the two-line context of the specification. *)
Lemma C6_fallback_witness :
  find (startswith (lit "Description:")) (ai_agent.context_lines plain_context) = Some description_line
  /\ find (startswith (lit "Languages:")) (ai_agent.context_lines plain_context) = Some languages_line
  /\ field "project_summary" (ai_agent.generate_rule_based_summary plain_context)
       = Some (PStr (lit "Foo bar."))
  /\ exists first rest,
       field "tech_stack" (ai_agent.generate_rule_based_summary plain_context)
         = Some (PList (PStr first :: rest))
       /\ contains (lit "Python") first = true.
Proof.
  assert (Hd : find (startswith (lit "Description:")) (ai_agent.context_lines plain_context)
               = Some description_line) by (vm_compute; reflexivity).
  assert (Hl : find (startswith (lit "Languages:")) (ai_agent.context_lines plain_context)
               = Some languages_line) by (vm_compute; reflexivity).
  split; [exact Hd | split; [exact Hl |]].
  exact (C6_fallback_lifts_first_lines plain_context Hd Hl).
Defined.

(** C8 as stated fails: a description made of one space is kept by the
    context, yet the fallback reads an empty value and uses its own
    missing-description headline. *)
Lemma C8_counterexample :
  exists context,
    _build_context blank_description = inr context
    /\ field "project_summary" (ai_agent.generate_rule_based_summary context)
       = Some (PStr missing_headline)
    /\ Some missing_headline <> description blank_description
    /\ missing_headline <> lit "No description provided.".
Proof.
  eexists. split; [reflexivity|]. split; [vm_compute; reflexivity|].
  split; discriminate.
Qed.

(** C8 (amended).  For every snapshot from which a context can be built
    (no commit carries a null message) and whose repository label and
    description hold no line break: the context places a non-empty value
    after the [Description:] label, the description or
    "No description provided."; the fallback's [project_summary] is that
    value with surrounding whitespace removed, hence the value itself when
    it has none to remove, and the generator's own missing-description
    headline only when the value is all whitespace. *)
Theorem C8_context_description (repo : RepositoryInfo) (lines : list str) :
  for_each commit_line (recent_commits repo) = inr lines ->
  no_linebreak (label_of repo) = true ->
  no_linebreak (description_value repo) = true ->
  exists context rest,
    _build_context repo = inr context
    /\ context = lit "Repository: " ++ label_of repo ++ newline
                 ++ lit "Description: " ++ description_value repo ++ newline ++ rest
    /\ description_value repo <> []
    /\ field "project_summary" (ai_agent.generate_rule_based_summary context)
       = Some (PStr (if nonempty (strip (description_value repo))
                     then strip (description_value repo)
                     else missing_headline))
    /\ (strip (description_value repo) = description_value repo ->
        field "project_summary" (ai_agent.generate_rule_based_summary context)
        = Some (PStr (description_value repo))).
Proof.
  intros Hlines Hl Hv.
  assert (Hne : description_value repo <> []).
  { unfold description_value. destruct (description repo) as [[|c d]|]; discriminate. }
  eexists. eexists. split; [|split; [reflexivity|]].
  - unfold _build_context. rewrite Hlines. reflexivity.
  - assert (Hsum : forall rest,
               field "project_summary"
                 (ai_agent.generate_rule_based_summary
                    (lit "Repository: " ++ label_of repo ++ newline
                     ++ lit "Description: " ++ description_value repo ++ newline ++ rest))
               = Some (PStr (if nonempty (strip (description_value repo))
                             then strip (description_value repo)
                             else missing_headline))).
    { intros rest. unfold ai_agent.generate_rule_based_summary.
      rewrite (first_value_description _ _ _ Hl Hv). reflexivity. }
    split; [exact Hne|]. split; [apply Hsum|].
    intros Hclean. rewrite Hsum, Hclean.
    destruct (description_value repo); [congruence | reflexivity].
Qed.

(** C8 (amended) on a snapshot with a one-line description. *)
Lemma C8_context_description_witness :
  for_each commit_line (recent_commits described_repo)
    = inr [lit "  - Initial commit (None)"]
  /\ no_linebreak (label_of described_repo) = true
  /\ no_linebreak (description_value described_repo) = true
  /\ exists context,
       _build_context described_repo = inr context
       /\ field "project_summary" (ai_agent.generate_rule_based_summary context)
          = Some (PStr (lit "My first repository.")).
Proof.
  assert (H1 : for_each commit_line (recent_commits described_repo)
               = inr [lit "  - Initial commit (None)"]) by reflexivity.
  assert (H2 : no_linebreak (label_of described_repo) = true) by reflexivity.
  assert (H3 : no_linebreak (description_value described_repo) = true) by reflexivity.
  repeat (split; [assumption|]).
  destruct (C8_context_description described_repo _ H1 H2 H3)
    as [context [rest [Hctx [_ [_ [_ Hclean]]]]]].
  exists context. split; [exact Hctx | exact (Hclean eq_refl)].
Defined.

(** C7 as stated fails: an object with a key outside the declared set is
    accepted, the key being dropped. *)
Lemma C7_counterexample :
  ~ In (lit "confidence") declared_fields
  /\ field "confidence" with_extra_field = Some (PInt 7)
  /\ model_validate with_extra_field
     = inr {| project_summary := lit "A tool."; how_it_helps_people := lit "It saves time.";
              main_features := []; how_it_works := []; tech_stack := [];
              getting_started := []; next_steps := []; glossary := [] |}.
Proof.
  split; [|split; reflexivity].
  cbn. intros H. repeat (destruct H as [H|H]; [discriminate H|]). exact H.
Qed.

Lemma both_inl_l {A B : Type} (a : Checked A) (b : Checked B) e :
  a = inl e -> exists e', both a b = inl e'.
Proof. intros ->. destruct b; cbn; eauto. Qed.

Lemma both_inl_l_ex {A B : Type} (a : Checked A) (b : Checked B) :
  (exists e, a = inl e) -> exists e', both a b = inl e'.
Proof. intros [e He]. now apply (both_inl_l a b e). Qed.

Lemma both_inl_r {A B : Type} (a : Checked A) (b : Checked B) :
  (exists e, b = inl e) -> exists e', both a b = inl e'.
Proof. intros [e ->]. destruct a; cbn; eauto. Qed.

Lemma check_list_not_list {A : Type} (check : list str -> pyval -> Checked A) loc v :
  is_list v = false -> exists e, check_list check loc (Some v) = inl e.
Proof. destruct v; cbn; intros H; try discriminate H; eauto. Qed.

Lemma check_str_not_str loc v :
  is_str v = false -> exists e, check_str loc (Some v) = inl e.
Proof. destruct v; cbn; intros H; try discriminate H; eauto. Qed.

Lemma model_validate_rejects d :
  (exists e, check_analysis d = inl e) -> rejected (PDict d).
Proof. intros [e He]. exists e. cbn. now rewrite He. Qed.

(** Reduce the rejection of a dictionary to the failure of the combined
    field checks. *)
Ltac to_field_checks :=
  apply model_validate_rejects; unfold check_analysis, check_strs;
  match goal with
  | |- exists e, match ?x with _ => _ end = _ =>
      let Hx := fresh "Hx" in
      assert (Hx : exists e, x = inl e); [| destruct Hx as [? ->]; eauto]
  end.

(** C7 (amended).  Validation of an externally supplied object rejects it,
    without coercion, when it is not a dictionary, when it omits
    [project_summary] or [how_it_helps_people] or gives either a value
    that is not a string, and when it gives a list field a value that is
    not a list.  Keys outside the declared field set are ignored: two
    dictionaries that agree on the eight declared fields validate to the
    same result, so an object is not rejected for carrying other keys. *)
Theorem C7_validation_shape :
  (forall obj, (forall d, obj <> PDict d) -> rejected obj)
  /\ (forall d k, In k scalar_fields -> dict_get k d = None -> rejected (PDict d))
  /\ (forall d k v, In k scalar_fields ->
        dict_get k d = Some v -> is_str v = false -> rejected (PDict d))
  /\ (forall d k v, In k list_fields ->
        dict_get k d = Some v -> is_list v = false -> rejected (PDict d))
  /\ (forall d d', (forall k, In k declared_fields -> dict_get k d = dict_get k d') ->
        model_validate (PDict d) = model_validate (PDict d')).
Proof.
  split; [|split; [|split; [|split]]].
  - intros obj Hobj. destruct obj; try (eexists; reflexivity).
    now destruct (Hobj d).
  - intros d k Hk Hnone. to_field_checks.
    unfold scalar_fields, In in Hk. destruct Hk as [<-|[<-|[]]]; rewrite Hnone.
    + eapply both_inl_l. reflexivity.
    + apply both_inl_r. eapply both_inl_l. reflexivity.
  - intros d k v Hk Hv Hns. to_field_checks.
    unfold scalar_fields, In in Hk. destruct Hk as [<-|[<-|[]]]; rewrite Hv.
    + destruct (check_str_not_str [lit "project_summary"] v Hns) as [e0 He0].
      eapply both_inl_l. exact He0.
    + destruct (check_str_not_str [lit "how_it_helps_people"] v Hns) as [e0 He0].
      apply both_inl_r. eapply both_inl_l. exact He0.
  - intros d k v Hk Hv Hnl. to_field_checks.
    unfold list_fields, In in Hk.
    destruct Hk as [<-|[<-|[<-|[<-|[<-|[<-|[]]]]]]]; rewrite Hv;
      repeat first
        [ solve [ apply check_list_not_list; exact Hnl ]
        | solve [ eapply both_inl_l_ex; apply check_list_not_list; exact Hnl ]
        | apply both_inl_r ].
  - intros d d' Hsame. cbn [model_validate]. unfold check_analysis.
    repeat match goal with
           | |- context [dict_get ?k d] =>
               rewrite (Hsame k) by (unfold declared_fields, In; tauto)
           end.
    reflexivity.
Qed.

(** C7 (amended) on concrete objects: a list, a dictionary without
    [how_it_helps_people], a numeric summary, a string where a list is
    declared, and the object with an undeclared key. *)
Lemma C7_validation_shape_witness :
  rejected (PList [])
  /\ rejected (PDict [(lit "project_summary", PStr (lit "A tool."))])
  /\ rejected (PDict [ (lit "project_summary", PInt 3);
                       (lit "how_it_helps_people", PStr (lit "It saves time.")) ])
  /\ rejected (PDict [ (lit "project_summary", PStr (lit "A tool."));
                       (lit "how_it_helps_people", PStr (lit "It saves time."));
                       (lit "tech_stack", PStr (lit "Python")) ])
  /\ model_validate with_extra_field
     = model_validate (PDict [ (lit "project_summary", PStr (lit "A tool."));
                               (lit "how_it_helps_people", PStr (lit "It saves time.")) ]).
Proof.
  destruct C7_validation_shape as [Hobj [Hmissing [Hscalar [Hlist Hextra]]]].
  split; [|split; [|split; [|split]]].
  - apply Hobj. discriminate.
  - apply (Hmissing _ (lit "how_it_helps_people"));
      [unfold scalar_fields, In; tauto | reflexivity].
  - apply (Hscalar _ (lit "project_summary") (PInt 3));
      [unfold scalar_fields, In; tauto | reflexivity | reflexivity].
  - apply (Hlist _ (lit "tech_stack") (PStr (lit "Python")));
      [unfold list_fields, In; tauto | reflexivity | reflexivity].
  - apply Hextra. intros k Hk.
    unfold declared_fields, In in Hk.
    repeat (destruct Hk as [<-|Hk]; [reflexivity|]). destruct Hk.
Defined.

(* ===================================================================== *)
(** * The request orchestrator *)
(* ===================================================================== *)

(** The fallback narrative always passes validation. *)
Lemma fallback_validates (context : str) :
  exists analysis, model_validate (ai_agent.generate_rule_based_summary context) = inr analysis.
Proof. eexists. reflexivity. Qed.

(** C2 as stated fails: the model replies [{}], which parses but has
    neither required field, and the request ends with status 500. *)
Lemma C2_counterexample :
  chat_empty_object (lit "sk-demo") (lit "gpt-4o-mini") (messages_for [])
    = inr (Some (lit "{}"))
  /\ loads_empty_object (lit "{}") = inr (PDict [])
  /\ model_validate (PDict [])
     = inl (ValidationError [ ([lit "project_summary"], lit "missing");
                              ([lit "how_it_helps_people"], lit "missing") ])
  /\ status_of (analyze_repository get_empty_object loads_empty_object b64decode_none
                  decode_none chat_empty_object validate_bare keyed_request) = 500%Z.
Proof. repeat split; vm_compute; reflexivity. Qed.

Section Orchestrator.

Variable client_get : str -> list (str * Z) -> Result github_client.Response.
Variable json_loads : str -> Result pyval.
Variable b64decode : str -> Result (list N).
Variable decode_utf8_ignore : list N -> str.
Variable chat_completion : str -> str -> list (str * str) -> Result (option str).
Variable validate_repository_info : pyval -> Result RepositoryInfo.

Local Abbreviation analyze :=
  (analyze_repository client_get json_loads b64decode decode_utf8_ignore
     chat_completion validate_repository_info).
Local Abbreviation fetch :=
  (github_client.fetch_repository_snapshot client_get json_loads b64decode
     decode_utf8_ignore).

(** C2 (amended).  Take a request that carries a non-empty [api_key] and
    reaches the narrative step (URL parsed, snapshot fetched and
    validated, context built).  If the language-model call raises, or
    its reply is not parseable JSON, the handler answers 200 with the
    fallback narrative, [used_ai = false] and the failure as
    [raw_response].  If the reply parses but the parsed object fails
    narrative validation, the handler raises [HTTPException] with
    status 500. *)
Theorem C2_ai_failure_paths
    (payload : AnalyzeRequest) (owner repo key context : str)
    (snapshot : pyval) (repo_info : RepositoryInfo) :
  github_client.extract_owner_repo (repo_url payload) = inr (owner, repo) ->
  fetch owner repo = inr snapshot ->
  validate_repository_info snapshot = inr repo_info ->
  _build_context repo_info = inr context ->
  api_key payload = Some key -> key <> [] ->
  let reply := chat_completion key (opt_or (model payload) (lit "gpt-4o-mini"))
                 (messages_for context) in
  (forall exc,
      reply = inl exc
      \/ (exists content, reply = inr content
                          /\ json_loads (opt_or content (lit "{}")) = inl exc) ->
      exists fallback,
        model_validate (ai_agent.generate_rule_based_summary context) = inr fallback
        /\ analyze payload
           = Responded {| repository := repo_info; analysis := fallback;
                          used_ai := false; raw_response := Some (AICallFailed exc) |}
        /\ status_of (analyze payload) = 200%Z)
  /\ (forall content data exc,
        reply = inr content ->
        json_loads (opt_or content (lit "{}")) = inr data ->
        model_validate data = inl exc ->
        analyze payload = HTTPException 500 exc
        /\ status_of (analyze payload) = 500%Z).
Proof.
  intros Hurl Hfetch Hinfo Hctx Hkey Hne reply.
  assert (Hreach : analyze payload = narrate json_loads chat_completion payload repo_info context).
  { unfold analyze_repository.
    now rewrite Hurl, Hfetch, Hinfo, Hctx. }
  destruct key as [|c k]; [congruence|].
  split.
  - intros exc Hfail.
    destruct (fallback_validates context) as [fallback Hfb].
    exists fallback. split; [exact Hfb|].
    assert (Hcall : ai_agent.call_ai_agent chat_completion json_loads context (c :: k)
                      (opt_or (model payload) (lit "gpt-4o-mini")) = inl exc).
    { unfold ai_agent.call_ai_agent. fold (messages_for context). fold reply.
      destruct Hfail as [-> | [content [-> Hparse]]]; [reflexivity|].
      destruct content as [[|c0 s0]|]; cbn in *; now rewrite Hparse. }
    assert (Hres : analyze payload
                   = Responded {| repository := repo_info; analysis := fallback;
                                  used_ai := false; raw_response := Some (AICallFailed exc) |}).
    { rewrite Hreach. unfold narrate. rewrite Hkey, Hcall, Hfb. reflexivity. }
    split; [exact Hres | now rewrite Hres].
  - intros content data exc Hreply Hparse Hbad.
    assert (Hcall : ai_agent.call_ai_agent chat_completion json_loads context (c :: k)
                      (opt_or (model payload) (lit "gpt-4o-mini"))
                    = inr (data, opt_or content (lit "{}"))).
    { unfold ai_agent.call_ai_agent. fold (messages_for context). fold reply.
      rewrite Hreply.
      destruct content as [[|c0 s0]|]; cbn in *; now rewrite Hparse. }
    assert (Hres : analyze payload = HTTPException 500 exc).
    { rewrite Hreach. unfold narrate. rewrite Hkey, Hcall, Hbad. reflexivity. }
    split; [exact Hres | now rewrite Hres].
Qed.

End Orchestrator.

(** C2 (amended) on one request, with a model whose call fails (200) and
    with a model that replies [{}] (500). *)
Lemma C2_ai_failure_paths_witness :
  exists snapshot context,
    github_client.extract_owner_repo (repo_url keyed_request)
      = inr (lit "octocat", lit "hello-world")
    /\ github_client.fetch_repository_snapshot get_empty_object loads_empty_object
         b64decode_none decode_none (lit "octocat") (lit "hello-world") = inr snapshot
    /\ validate_bare snapshot = inr bare_info
    /\ _build_context bare_info = inr context
    /\ api_key keyed_request = Some (lit "sk-demo")
    /\ lit "sk-demo" <> []
    /\ status_of (analyze_repository get_empty_object loads_empty_object b64decode_none
                    decode_none chat_unauthorized validate_bare keyed_request) = 200%Z
    /\ status_of (analyze_repository get_empty_object loads_empty_object b64decode_none
                    decode_none chat_empty_object validate_bare keyed_request) = 500%Z.
Proof.
  eexists. eexists.
  assert (Hurl : github_client.extract_owner_repo (repo_url keyed_request)
                 = inr (lit "octocat", lit "hello-world")) by (vm_compute; reflexivity).
  split; [exact Hurl|].
  split; [vm_compute; reflexivity|].
  split; [reflexivity|].
  split; [vm_compute; reflexivity|].
  split; [reflexivity|].
  split; [discriminate|].
  split.
  - destruct (C2_ai_failure_paths get_empty_object loads_empty_object b64decode_none
                decode_none chat_unauthorized validate_bare keyed_request
                _ _ (lit "sk-demo") _ _ bare_info
                Hurl eq_refl eq_refl eq_refl eq_refl ltac:(discriminate)) as [Hfallback _].
    destruct (Hfallback (OpenAIError (lit "Incorrect API key provided")) (or_introl eq_refl))
      as [fallback [_ [_ Hstatus]]].
    exact Hstatus.
  - destruct (C2_ai_failure_paths get_empty_object loads_empty_object b64decode_none
                decode_none chat_empty_object validate_bare keyed_request
                _ _ (lit "sk-demo") _ _ bare_info
                Hurl eq_refl eq_refl eq_refl eq_refl ltac:(discriminate)) as [_ Hshape].
    exact (proj2 (Hshape (Some (lit "{}")) (PDict []) _ eq_refl eq_refl eq_refl)).
Defined.

(* ===================================================================== *)
(** * The document renderer *)
(* ===================================================================== *)

Lemma exec_bind (p q : PDF unit) (s : FPDF) :
  execState (p ;; q) s = execState q (execState p s).
Proof.
  unfold execState. cbn. destruct (runState p s). reflexivity.
Qed.

Lemma appends_call c n : appends (call c) n n [c].
Proof. intros cs. reflexivity. Qed.

Lemma appends_ret n : appends (ret tt) n n [].
Proof. intros cs. cbn. now rewrite app_nil_r. Qed.

Lemma appends_bind p q n n1 n2 w1 w2 :
  appends p n n1 w1 -> appends q n1 n2 w2 -> appends (p ;; q) n n2 (w1 ++ w2).
Proof.
  intros Hp Hq cs. rewrite exec_bind, Hp, Hq. now rewrite app_assoc.
Qed.

Lemma appends_when (b : bool) p n w :
  appends p n n w -> appends (when b p) n n (if b then w else []).
Proof.
  intros Hp. destruct b; [exact Hp | apply appends_ret].
Qed.

Lemma appends_for {A : Type} (l : list A) (body : A -> PDF unit) n (w : A -> list Call) :
  (forall x, appends (body x) n n (w x)) -> appends (for_ l body) n n (flat_map w l).
Proof.
  intros Hb. induction l as [|x l IH]; cbn [for_ flat_map].
  - apply appends_ret.
  - eapply appends_bind; [apply Hb | exact IH].
Qed.

Lemma appends_header n : appends header n n header_calls.
Proof. intros cs. cbn. repeat rewrite <- app_assoc. reflexivity. Qed.

Lemma appends_footer n : appends footer n n (footer_calls n).
Proof. intros cs. cbn. repeat rewrite <- app_assoc. reflexivity. Qed.

Lemma appends_add_page_first : appends add_page 0 1 header_calls.
Proof. intros cs. cbn. repeat rewrite <- app_assoc. reflexivity. Qed.

Lemma appends_close n : (n =? 0)%Z = false -> appends close n n (footer_calls n).
Proof.
  intros Hn cs. destruct n; [discriminate | |];
    cbn; repeat rewrite <- app_assoc; reflexivity.
Qed.

Lemma appends_section title body n :
  appends (_write_section title (Some body)) n n (heading_calls title ++ body_calls body).
Proof.
  intros cs. destruct body; cbn; repeat rewrite <- app_assoc; reflexivity.
Qed.

Lemma appends_heading title n :
  appends (_write_section title None) n n (heading_calls title).
Proof. intros cs. cbn. repeat rewrite <- app_assoc. reflexivity. Qed.

Lemma flat_map_singleton {A B : Type} (f : A -> B) (l : list A) :
  flat_map (fun x => [f x]) l = map f l.
Proof. induction l; cbn; congruence. Qed.

Lemma appends_list items n : appends (_write_list items) n n (list_calls items).
Proof.
  unfold _write_list, list_calls.
  change [SetFont "Helvetica" "" 11; SetTextColor 10 10 10]
    with ([SetFont "Helvetica" "" 11] ++ [SetTextColor 10 10 10]).
  rewrite <- app_assoc.
  repeat (eapply appends_bind; [apply appends_call|]).
  rewrite <- flat_map_singleton.
  eapply appends_bind; [|apply appends_call].
  apply appends_for. intros x. apply appends_call.
Qed.

Lemma appends_list_section title items n :
  appends (when (some items) (_write_section title None ;; _write_list items)) n n
          (list_section title items).
Proof.
  apply appends_when. eapply appends_bind; [apply appends_heading | apply appends_list].
Qed.

Lemma appends_entry e n :
  appends (when (nonempty (term e) && nonempty (definition e))
             (call (SetFont "Helvetica" "B" 11) ;;
              call (MultiCell 0 6 (term e)) ;;
              call (SetFont "Helvetica" "" 11) ;;
              call (MultiCell 0 6 (definition e)) ;;
              call (Ln 1)))
          n n (if renderable e then entry_calls e else []).
Proof.
  apply appends_when. intros cs. cbn. repeat rewrite <- app_assoc. reflexivity.
Qed.

(** The calls [render] makes on a fresh FPDF object. *)
Lemma render_calls repo_name a :
  calls (execState (render repo_name a) AnalysisPDF)
  = front_calls repo_name a ++ glossary_section (glossary a) ++ footer_calls 1.
Proof.
  assert (H : appends (render repo_name a) 0 1
                (front_calls repo_name a ++ glossary_section (glossary a) ++ footer_calls 1)).
  { unfold render, front_calls.
    repeat rewrite <- app_assoc.
    eapply appends_bind; [apply appends_call|].
    eapply appends_bind; [apply appends_add_page_first|].
    change [SetFont "Helvetica" "B" 18;
            Cell 0 12 (opt_or (Some repo_name) (lit "Repository Report")) true ""; Ln 4]
      with ([SetFont "Helvetica" "B" 18]
            ++ [Cell 0 12 (opt_or (Some repo_name) (lit "Repository Report")) true ""]
            ++ [Ln 4]).
    repeat rewrite <- app_assoc.
    do 3 (eapply appends_bind; [apply appends_call|]).
    eapply appends_bind; [apply (appends_when _ _ _ _ (appends_section _ _ _))|].
    rewrite (app_assoc (heading_calls "How it helps people")).
    eapply appends_bind; [apply appends_section|].
    do 5 (eapply appends_bind; [apply appends_list_section|]).
    eapply appends_bind; [|apply appends_close; reflexivity].
    apply appends_when.
    eapply appends_bind; [apply appends_heading|].
    apply appends_for. intros e. apply appends_entry. }
  unfold AnalysisPDF. rewrite H. reflexivity.
Qed.

Lemma texts_app (a b : list Call) : texts (a ++ b) = texts a ++ texts b.
Proof.
  induction a as [|c a IH]; cbn; [reflexivity|].
  destruct (text_of c); cbn; now rewrite IH.
Qed.



Lemma build_pdf_ok repo_name a :
  forallb (forallb is_latin1)
          (texts (front_calls repo_name a ++ glossary_section (glossary a) ++ footer_calls 1)) = true ->
  build_pdf repo_name a
  = inr (front_calls repo_name a ++ glossary_section (glossary a) ++ footer_calls 1).
Proof.
  intros Hok. unfold build_pdf, encode_latin1. rewrite render_calls, Hok. reflexivity.
Qed.

Lemma latin1_title repo_name :
  forallb is_latin1 repo_name = true ->
  forallb is_latin1 (opt_or (Some repo_name) (lit "Repository Report")) = true.
Proof. destruct repo_name; [reflexivity | auto]. Qed.

(** C1 (the code departs from it).  For the narrative whose fields are all
    empty and any title Latin-1 can encode, [build_pdf] returns a document
    whose texts are the page header, the title, the section heading
    "How it helps people" and the page footer: that heading is drawn
    although the section has no text. *)
Theorem C1_empty_narrative_draws_heading (repo_name : str) (a : RepositoryAnalysis) :
  a = empty_analysis ->
  forallb is_latin1 repo_name = true ->
  exists doc,
    build_pdf repo_name a = inr doc
    /\ In (MultiCell 0 8 (lit "How it helps people")) doc
    /\ texts doc = [ lit "Gitalyzer Report";
                     opt_or (Some repo_name) (lit "Repository Report");
                     lit "How it helps people";
                     lit "Page 1" ].
Proof.
  intros -> Hname. eexists. split; [|split].
  - apply build_pdf_ok. unfold front_calls.
    pose proof (latin1_title _ Hname) as Ht.
    remember (opt_or (Some repo_name) (lit "Repository Report")) as title eqn:E in *.
    cbn. apply andb_true_iff. split; [subst title; exact Ht | reflexivity].
  - cbn. tauto.
  - reflexivity.
Qed.

(** C1's divergence on the title "gitalyzer". *)
Lemma C1_empty_narrative_witness :
  empty_analysis = empty_analysis
  /\ forallb is_latin1 (lit "gitalyzer") = true
  /\ exists doc,
       build_pdf (lit "gitalyzer") empty_analysis = inr doc
       /\ In (MultiCell 0 8 (lit "How it helps people")) doc
       /\ texts doc = [ lit "Gitalyzer Report"; lit "gitalyzer";
                        lit "How it helps people"; lit "Page 1" ].
Proof.
  split; [reflexivity | split; [reflexivity |]].
  exact (C1_empty_narrative_draws_heading (lit "gitalyzer") empty_analysis
           eq_refl eq_refl).
Defined.



(* ===================================================================== *)
(** * Further properties of the URL parser *)
(* ===================================================================== *)

Section UrlFacts.

Implicit Types (s a b cur : str) (c : char).

Lemma not_in_char_in s c : ~ In c s -> char_in s c = false.
Proof.
  intros H. unfold char_in. destruct (existsb (N.eqb c) s) eqn:E; [|reflexivity].
  apply existsb_exists in E as [x [Hx Hcx]]. apply N.eqb_eq in Hcx as ->. contradiction.
Qed.

(** The pieces of a cut at one character do not hold that character. *)
Lemma split_go_char_pieces c s cur :
  ~ In c cur -> Forall (fun piece => ~ In c piece) (split_go [c] s 0 cur).
Proof.
  revert cur. induction s as [|x s IH]; intros cur Hcur; cbn [split_go startswith].
  - now constructor.
  - destruct (N.eqb_spec c x) as [->|Hne]; cbn [andb].
    + constructor; [exact Hcur|]. apply IH. intros [].
    + apply IH. intros Hin. apply in_app_or in Hin as [Hin|[->|[]]]; [now apply Hcur|].
      now apply Hne.
Qed.

Lemma item_no_char c i (parts : list str) :
  Forall (fun piece => ~ In c piece) parts -> ~ In c (item i parts).
Proof.
  intros H. unfold item. destruct (nth_in_or_default i parts []) as [Hin | ->]; [|intros []].
  rewrite Forall_forall in H. now apply H.
Qed.

Lemma in_firstn {A : Type} (x : A) n (l : list A) : In x (firstn n l) -> In x l.
Proof.
  revert l. induction n as [|n IH]; intros [|y l] H; cbn in *; try contradiction.
  destruct H as [->|H]; [now left | right; now apply IH].
Qed.

Lemma drop_last_no_char c n s : ~ In c s -> ~ In c (drop_last n s).
Proof. intros H Hin. apply H. unfold drop_last in Hin. eapply in_firstn, Hin. Qed.

End UrlFacts.

(** X1.  A URL without "github.com" is refused with the first message.  A
    URL that stops after the owner (the marker, then one non-empty
    segment without slash, trailing whitespace or a further marker, with
    or without a final slash) is refused with the second. *)
Theorem extract_owner_repo_rejects :
  (forall url,
      contains domain url = false ->
      extract_owner_repo url
      = inl (ValueError (lit "The provided URL does not appear to be a GitHub repository")))
  /\ (forall prefix owner trailing_slash,
        owner <> [] ->
        char_in owner slash = false ->
        rstrip_with is_space owner = owner ->
        contains marker owner = false ->
        extract_owner_repo (url_without_repo prefix owner trailing_slash)
        = inl (ValueError
                 (lit "Please include both the owner and repository name in the URL"))).
Proof.
  split.
  - intros url H. unfold extract_owner_repo. now rewrite H.
  - intros prefix owner trailing_slash Hne Hslash Hclean Hmarker.
    apply char_in_false in Hslash.
    destruct (nonempty_last owner Hne) as [s' [c Ho]].
    assert (Hc : is_space c = false)
      by (rewrite Ho in Hclean; now apply rstrip_with_last_kept in Hclean).
    assert (Hcs : c <> slash).
    { intros ->. apply Hslash. rewrite Ho. apply in_or_app. right. now left. }
    unfold extract_owner_repo, url_without_repo.
    rewrite contains_domain. cbn [negb].
    rewrite Ho, <- app_assoc, (cleaned_url prefix s' c trailing_slash Hc Hcs), <- Ho.
    rewrite (split_marker_last _ _ Hmarker).
    unfold split. change (lit "/") with [slash].
    rewrite (split_go_char_absent slash owner [] Hslash). reflexivity.
Qed.

(** X1 on a text that is no GitHub URL and on the URL of a user page. *)
Lemma extract_owner_repo_rejects_witness :
  extract_owner_repo (lit "https://gitlab.com/octocat/hello-world")
    = inl (ValueError (lit "The provided URL does not appear to be a GitHub repository"))
  /\ extract_owner_repo (lit "https://github.com/octocat/")
     = inl (ValueError (lit "Please include both the owner and repository name in the URL")).
Proof.
  split.
  - exact (proj1 extract_owner_repo_rejects (lit "https://gitlab.com/octocat/hello-world")
             eq_refl).
  - exact (proj2 extract_owner_repo_rejects (lit "https://") (lit "octocat") true
             ltac:(discriminate) eq_refl eq_refl eq_refl).
Defined.

(** X2.  Whatever the URL, an owner and a repository name that the parser
    returns hold no slash. *)
Theorem extract_owner_repo_no_slash (url owner repo : str) :
  extract_owner_repo url = inr (owner, repo) ->
  char_in owner slash = false /\ char_in repo slash = false.
Proof.
  unfold extract_owner_repo.
  destruct (contains domain url); cbn [negb]; [|discriminate].
  set (parts := split (lit "/") _).
  destruct (List.length parts <? 2)%nat; [discriminate|].
  intros H. injection H as <- <-.
  assert (Hparts : Forall (fun piece => ~ In slash piece) parts).
  { unfold parts, split. change (lit "/") with [slash].
    apply split_go_char_pieces. intros []. }
  split; apply not_in_char_in.
  - now apply item_no_char.
  - destruct (endswith _ _); [apply drop_last_no_char|]; now apply item_no_char.
Qed.

Lemma extract_owner_repo_no_slash_witness :
  extract_owner_repo (lit "https://github.com/octocat/hello-world/issues/12")
    = inr (lit "octocat", lit "hello-world")
  /\ char_in (lit "octocat") slash = false
  /\ char_in (lit "hello-world") slash = false.
Proof.
  assert (H : extract_owner_repo (lit "https://github.com/octocat/hello-world/issues/12")
              = inr (lit "octocat", lit "hello-world")) by (vm_compute; reflexivity).
  split; [exact H|].
  exact (extract_owner_repo_no_slash _ _ _ H).
Defined.

(** X3.  The address of the site itself is not refused.  After the final
    slash is trimmed the marker "github.com/" is gone, so the whole text
    is cut at its slashes: the parser returns the scheme with its colon as
    owner and an empty repository name. *)
Theorem extract_owner_repo_bare_domain (scheme : str) (trailing_slash : bool) :
  char_in scheme slash = false ->
  lstrip_with is_space scheme = scheme ->
  contains marker (scheme ++ lit "://github.com") = false ->
  extract_owner_repo (url_of_domain scheme trailing_slash) = inr (scheme ++ lit ":", []).
Proof.
  intros Hslash Hlead Hmarker. apply char_in_false in Hslash.
  unfold extract_owner_repo, url_of_domain.
  assert (Hdom : contains domain (scheme ++ lit "://github.com"
                                  ++ (if trailing_slash then [slash] else [])) = true).
  { apply contains_app_r. change (lit "://github.com") with (lit "://" ++ domain).
    rewrite <- app_assoc. apply contains_app_r.
    rewrite <- (app_nil_r domain) at 1. destruct trailing_slash; apply contains_here. }
  rewrite Hdom. cbn [negb].
  assert (Hcleaned : rstrip (lit "/")
                       (strip (scheme ++ lit "://github.com"
                               ++ (if trailing_slash then [slash] else [])))
                     = scheme ++ lit "://github.com").
  { unfold strip, rstrip. destruct trailing_slash.
    - change (scheme ++ lit "://github.com" ++ [slash])
        with (scheme ++ 58%N :: lit "//github.com/").
      rewrite (rstrip_with_app is_space scheme 58%N _ eq_refl).
      change (rstrip_with is_space (lit "//github.com/")) with (lit "//github.com/").
      rewrite (lstrip_with_app is_space scheme 58%N _ eq_refl), Hlead.
      now rewrite (rstrip_with_app (char_in (lit "/")) scheme 58%N _ eq_refl).
    - change (scheme ++ lit "://github.com" ++ [])
        with (scheme ++ 58%N :: lit "//github.com").
      rewrite (rstrip_with_app is_space scheme 58%N _ eq_refl).
      change (rstrip_with is_space (lit "//github.com")) with (lit "//github.com").
      rewrite (lstrip_with_app is_space scheme 58%N _ eq_refl), Hlead.
      now rewrite (rstrip_with_app (char_in (lit "/")) scheme 58%N _ eq_refl). }
  assert (Hlast : last_piece (split marker (scheme ++ lit "://github.com"))
                  = scheme ++ lit "://github.com").
  { unfold split. now rewrite (split_go_absent _ _ _ Hmarker). }
  assert (Hparts : split (lit "/") (scheme ++ lit "://github.com")
                   = [scheme ++ lit ":"; []; lit "github.com"]).
  { unfold split. change (lit "/") with [slash].
    replace (scheme ++ lit "://github.com")
      with ((scheme ++ lit ":") ++ slash :: lit "/github.com")
      by (now rewrite <- app_assoc).
    rewrite split_go_char; [reflexivity|].
    intros Hin. apply in_app_or in Hin as [Hin|[Hin|[]]];
      [now apply Hslash | discriminate Hin]. }
  rewrite Hcleaned, Hlast, Hparts. reflexivity.
Qed.

(** X3 on the address of the site, with its final slash. *)
Lemma extract_owner_repo_bare_domain_witness :
  char_in (lit "https") slash = false
  /\ lstrip_with is_space (lit "https") = lit "https"
  /\ contains marker (lit "https" ++ lit "://github.com") = false
  /\ extract_owner_repo (lit "https://github.com/") = inr (lit "https:", []).
Proof.
  repeat (split; [reflexivity|]).
  exact (extract_owner_repo_bare_domain (lit "https") true eq_refl eq_refl eq_refl).
Defined.

(* ===================================================================== *)
(** * Further properties of the snapshot fetcher *)
(* ===================================================================== *)

Section FetcherFacts.

Variable client_get : str -> list (str * Z) -> Result Response.
Variable json_loads : str -> Result pyval.
Variable b64decode : str -> Result (list N).
Variable decode_utf8_ignore : list N -> str.

Local Abbreviation fetch :=
  (fetch_repository_snapshot client_get json_loads b64decode decode_utf8_ignore).
Local Abbreviation readme := (read_readme json_loads b64decode decode_utf8_ignore).

(** X4.  Only a status is forgiven.  An exception of the metadata call,
    an exception of the languages call, or a languages answer with
    status 200 whose body is not JSON, ends the whole fetch with that
    exception. *)
Theorem fetch_propagates_exceptions (owner repo : str) (exc : Exn) :
  (client_get (repo_url_of owner repo) [] = inl exc -> fetch owner repo = inl exc)
  /\ (forall repo_resp repo_data,
        client_get (repo_url_of owner repo) [] = inr repo_resp ->
        status_code repo_resp = 200%Z ->
        json_loads (text repo_resp) = inr repo_data ->
        client_get (repo_url_of owner repo ++ lit "/languages") [] = inl exc ->
        fetch owner repo = inl exc)
  /\ (forall repo_resp repo_data languages_resp,
        client_get (repo_url_of owner repo) [] = inr repo_resp ->
        status_code repo_resp = 200%Z ->
        json_loads (text repo_resp) = inr repo_data ->
        client_get (repo_url_of owner repo ++ lit "/languages") [] = inr languages_resp ->
        status_code languages_resp = 200%Z ->
        json_loads (text languages_resp) = inl exc ->
        fetch owner repo = inl exc).
Proof.
  split; [|split].
  - intros H. unfold fetch_repository_snapshot. now rewrite H.
  - intros repo_resp repo_data Hrepo Hok Hjson Hlang.
    unfold fetch_repository_snapshot. rewrite Hrepo. cbn [bind Monad_either].
    rewrite Hok. cbn [Z.eqb Pos.eqb negb]. unfold json at 1. rewrite Hjson.
    cbn [bind Monad_either]. now rewrite Hlang.
  - intros repo_resp repo_data languages_resp Hrepo Hok Hjson Hlang Hlok Hbad.
    unfold fetch_repository_snapshot. rewrite Hrepo. cbn [bind Monad_either].
    rewrite Hok. cbn [Z.eqb Pos.eqb negb]. unfold json at 1. rewrite Hjson.
    cbn [bind Monad_either]. rewrite Hlang. cbn [bind Monad_either].
    rewrite Hlok. cbn [Z.eqb Pos.eqb]. unfold json at 1. now rewrite Hbad.
Qed.

(** X5.  What the README branch reads from a payload that is a JSON
    object: nothing when the payload names another encoding than base64
    or has no content; the decoded content, or the decoder's exception,
    otherwise; an [AttributeError] when the content is not a string. *)
Theorem read_readme_cases (resp : Response) (payload : list (str * pyval)) :
  json_loads (text resp) = inr (PDict payload) ->
  let encoding := match dict_get (lit "encoding") payload with
                  | Some e => e
                  | None => PStr (lit "base64")
                  end in
  (py_eq_str encoding "base64" = false -> readme resp = inr [])
  /\ (dict_get (lit "content") payload = None -> readme resp = inr [])
  /\ (forall content,
        py_eq_str encoding "base64" = true ->
        dict_get (lit "content") payload = Some (PStr content) ->
        readme resp = match b64decode content with
                      | inr raw_bytes => inr (decode_utf8_ignore raw_bytes)
                      | inl exc => inl exc
                      end)
  /\ (forall content,
        py_eq_str encoding "base64" = true ->
        dict_get (lit "content") payload = Some content ->
        is_str content = false ->
        readme resp = inl (no_attribute content "encode")).
Proof.
  intros Hjson encoding. unfold read_readme, json. rewrite Hjson.
  cbn [bind Monad_either py_get ret]. fold encoding.
  split; [|split; [|split]].
  - intros ->. reflexivity.
  - intros Hnone. unfold has_key. rewrite Hnone.
    destruct (py_eq_str encoding "base64"); reflexivity.
  - intros content -> Hcontent. unfold has_key. rewrite Hcontent. reflexivity.
  - intros content -> Hcontent Hns. unfold has_key. rewrite Hcontent.
    destruct content; try discriminate Hns; reflexivity.
Qed.

Lemma for_each_read_commit items commits :
  for_each read_commit items = inr commits -> Forall is_commit_summary commits.
Proof.
  revert commits. induction items as [|x items IH]; intros commits H;
    cbn [for_each bind ret Monad_either] in H.
  - injection H as <-. constructor.
  - destruct (read_commit x) as [e|c] eqn:Hc; [discriminate|].
    destruct (for_each read_commit items) as [e|cs]; [discriminate|].
    injection H as <-. constructor; [|now apply IH].
    unfold read_commit in Hc. cbn [bind Monad_either] in Hc.
    destruct (py_get x "commit" (PDict [])) as [e|commit]; [discriminate|].
    destruct (py_get commit "message" (PStr [])) as [e|message]; [discriminate|].
    destruct (py_get commit "author" PNone) as [e|author]; [discriminate|].
    destruct (py_get (py_or author (PDict [])) "date" PNone) as [e|date]; [discriminate|].
    cbn in Hc. injection Hc as <-. now exists message, date.
Qed.

(** X6.  Every snapshot the fetcher returns has the same fifteen keys in
    the same order, a README excerpt of at most 4000 characters, and
    commits reduced to a message and a date. *)
Theorem snapshot_shape (owner repo : str) (snapshot : pyval) :
  fetch owner repo = inr snapshot ->
  exists fields excerpt commit_list,
    snapshot = PDict fields
    /\ map fst fields = snapshot_keys
    /\ dict_get (lit "readme_excerpt") fields = Some (PStr excerpt)
    /\ (List.length excerpt <= 4000)%nat
    /\ dict_get (lit "recent_commits") fields = Some (PList commit_list)
    /\ Forall is_commit_summary commit_list.
Proof.
  unfold fetch_repository_snapshot. cbn [bind Monad_either].
  destruct (client_get (repo_url_of owner repo) []) as [e|repo_resp]; [discriminate|].
  destruct (negb _); [discriminate|].
  destruct (json json_loads repo_resp) as [e|repo_data]; [discriminate|].
  destruct (client_get (repo_url_of owner repo ++ lit "/languages") [])
    as [e|languages_resp]; [discriminate|].
  destruct (if (status_code languages_resp =? 200)%Z then _ else _)
    as [e|languages_data]; [discriminate|].
  destruct (client_get (repo_url_of owner repo ++ lit "/readme") [])
    as [e|readme_resp]; [discriminate|].
  destruct (if (status_code readme_resp =? 200)%Z then _ else _)
    as [e|readme_text]; [discriminate|].
  destruct (client_get (repo_url_of owner repo ++ lit "/commits") _)
    as [e|commits_resp]; [discriminate|].
  destruct (if (status_code commits_resp =? 200)%Z then _ else _)
    as [e|commit_list] eqn:Hcommits; [discriminate|].
  repeat match goal with
         | |- match ?x with inl _ => _ | inr _ => _ end = _ -> _ =>
             destruct x; [discriminate|]
         end.
  intros H. injection H as <-.
  eexists. exists (slice_to 4000 readme_text), commit_list.
  split; [reflexivity|]. split; [reflexivity|]. split; [reflexivity|].
  split; [apply firstn_le_length|]. split; [reflexivity|].
  destruct (status_code commits_resp =? 200)%Z.
  - unfold read_commits in Hcommits. cbn [bind Monad_either] in Hcommits.
    destruct (json json_loads commits_resp) as [e|payload]; [discriminate|].
    destruct (py_iter payload) as [e|items]; [discriminate|].
    now apply for_each_read_commit in Hcommits.
  - injection Hcommits as <-. constructor.
Qed.

End FetcherFacts.

(** X4 on a provider that serves the metadata and then times out. *)
Lemma fetch_propagates_exceptions_witness :
  fetch_repository_snapshot get_languages_timeout loads_empty_object b64decode_none
    decode_none (lit "octocat") (lit "hello-world")
  = inl (HTTPError (lit "timed out")).
Proof.
  exact (proj1 (proj2 (fetch_propagates_exceptions get_languages_timeout loads_empty_object
                         b64decode_none decode_none (lit "octocat") (lit "hello-world")
                         (HTTPError (lit "timed out"))))
               {| status_code := 200; text := lit "{}" |} (PDict [])
               eq_refl eq_refl eq_refl eq_refl).
Defined.

(** X5 on a README that is not base64: the decoder, which would fail, is
    not consulted. *)
Lemma read_readme_cases_witness :
  loads_plain_readme (lit "{...}")
    = inr (PDict [ (lit "encoding", PStr (lit "none")); (lit "content", PStr (lit "hello")) ])
  /\ read_readme loads_plain_readme b64decode_fails decode_none
       {| status_code := 200; text := lit "{...}" |} = inr [].
Proof.
  split; [reflexivity|].
  exact (proj1 (read_readme_cases loads_plain_readme b64decode_fails decode_none
                  {| status_code := 200; text := lit "{...}" |} _ eq_refl) eq_refl).
Defined.

(** X6 on the provider that serves the metadata only. *)
Lemma snapshot_shape_witness :
  exists snapshot,
    fetch_repository_snapshot get_only_metadata loads_empty_object b64decode_none
      decode_none (lit "octocat") (lit "hello-world") = inr snapshot
    /\ exists fields excerpt commit_list,
         snapshot = PDict fields
         /\ map fst fields = snapshot_keys
         /\ dict_get (lit "readme_excerpt") fields = Some (PStr excerpt)
         /\ (List.length excerpt <= 4000)%nat
         /\ dict_get (lit "recent_commits") fields = Some (PList commit_list)
         /\ Forall is_commit_summary commit_list.
Proof.
  eexists. split; [vm_compute; reflexivity|].
  exact (snapshot_shape get_only_metadata loads_empty_object b64decode_none decode_none
           (lit "octocat") (lit "hello-world") _ eq_refl).
Defined.

(* ===================================================================== *)
(** * Further properties of the narrative model *)
(* ===================================================================== *)

Section ValidationFacts.

Lemma check_items_dump_strs (l : list str) loc i :
  check_items (fun loc v => check_str loc (Some v)) loc i (map PStr l) = inr l.
Proof.
  revert i. induction l as [|x l IH]; intros i; cbn [map check_items]; [reflexivity|].
  now rewrite IH.
Qed.

Lemma check_items_dump_glossary (entries : list GlossaryItem) loc i :
  check_items check_glossary_item loc i (map dump_glossary_item entries) = inr entries.
Proof.
  revert i. induction entries as [|g entries IH]; intros i; cbn [map check_items];
    [reflexivity|].
  rewrite IH. now destruct g.
Qed.

(** X7.  Validation undoes [model_dump]: the dictionary of a narrative
    validates, to that narrative. *)
Theorem model_validate_model_dump (a : RepositoryAnalysis) :
  model_validate (model_dump a) = inr a.
Proof.
  destruct a as [ps hh mf hw ts gs ns gl].
  unfold model_validate, model_dump, check_analysis, check_strs, dump_strs.
  cbn -[check_items].
  now rewrite !check_items_dump_strs, check_items_dump_glossary.
Qed.

Lemma both_inr {A B : Type} (a : Checked A) (b : Checked B) x y :
  both a b = inr (x, y) -> a = inr x /\ b = inr y.
Proof. destruct a, b; cbn; intros H; try discriminate H. now injection H as <- <-. Qed.

Lemma check_str_inr loc v s : check_str loc v = inr s -> v = Some (PStr s).
Proof. destruct v as [[]|]; cbn; intros H; try discriminate H. now injection H as <-. Qed.

Lemma check_items_strs_inr loc i l xs :
  check_items (fun loc v => check_str loc (Some v)) loc i l = inr xs -> l = map PStr xs.
Proof.
  revert i xs. induction l as [|v l IH]; intros i xs H; cbn [check_items] in H.
  - now injection H as <-.
  - destruct (both _ _) as [e|[x xs']] eqn:Hb; [discriminate|].
    injection H as <-. apply both_inr in Hb as [Hx Hxs].
    apply check_str_inr in Hx. injection Hx as ->.
    cbn [map]. f_equal. eapply IH, Hxs.
Qed.

Lemma check_strs_inr loc v xs : check_strs loc v = inr xs -> read_strs v xs.
Proof.
  unfold check_strs, check_list, read_strs.
  destruct v as [[]|]; intros H; try discriminate H.
  - right. apply check_items_strs_inr in H. now rewrite H.
  - left. now injection H as <-.
Qed.

Lemma check_glossary_item_inr loc v g : check_glossary_item loc v = inr g -> read_item v g.
Proof.
  destruct v; cbn [check_glossary_item]; intros H; try discriminate H.
  destruct (both _ _) as [e|[t df]] eqn:Hb; [discriminate|].
  injection H as <-. apply both_inr in Hb as [Ht Hdf].
  apply check_str_inr in Ht. apply check_str_inr in Hdf.
  exists d. now rewrite Ht, Hdf.
Qed.

Lemma check_items_glossary_inr loc i l gs :
  check_items check_glossary_item loc i l = inr gs -> Forall2 read_item l gs.
Proof.
  revert i gs. induction l as [|v l IH]; intros i gs H; cbn [check_items] in H.
  - injection H as <-. constructor.
  - destruct (both _ _) as [e|[g gs']] eqn:Hb; [discriminate|].
    injection H as <-. apply both_inr in Hb as [Hg Hgs].
    constructor; [eapply check_glossary_item_inr, Hg | eapply IH, Hgs].
Qed.

Lemma check_glossary_inr loc v gs :
  check_list check_glossary_item loc v = inr gs -> read_glossary v gs.
Proof.
  unfold check_list, read_glossary.
  destruct v as [[]|]; intros H; try discriminate H.
  - right. eexists. split; [reflexivity|]. eapply check_items_glossary_inr, H.
  - left. now injection H as <-.
Qed.

(** X8.  Nothing is coerced.  When an object validates, the narrative
    holds what the object holds: both summaries are the strings bound to
    their keys, every list is the list of strings bound to its key (empty
    when the key is absent), and every glossary item comes from a
    dictionary with that term and that definition. *)
Theorem model_validate_verbatim (d : list (str * pyval)) (a : RepositoryAnalysis) :
  model_validate (PDict d) = inr a ->
  dict_get (lit "project_summary") d = Some (PStr (project_summary a))
  /\ dict_get (lit "how_it_helps_people") d = Some (PStr (how_it_helps_people a))
  /\ read_strs (dict_get (lit "main_features") d) (main_features a)
  /\ read_strs (dict_get (lit "how_it_works") d) (how_it_works a)
  /\ read_strs (dict_get (lit "tech_stack") d) (tech_stack a)
  /\ read_strs (dict_get (lit "getting_started") d) (getting_started a)
  /\ read_strs (dict_get (lit "next_steps") d) (next_steps a)
  /\ read_glossary (dict_get (lit "glossary") d) (glossary a).
Proof.
  cbn [model_validate]. destruct (check_analysis d) as [e|a'] eqn:Hc; [discriminate|].
  intros H. injection H as <-. unfold check_analysis in Hc.
  destruct (both _ _) as [e|[ps [hh [mf [hw [ts [gs [ns gl]]]]]]]] eqn:Hb; [discriminate|].
  injection Hc as <-. cbn [project_summary how_it_helps_people main_features how_it_works
                          tech_stack getting_started next_steps glossary].
  apply both_inr in Hb as [Hps Hb]. apply both_inr in Hb as [Hhh Hb].
  apply both_inr in Hb as [Hmf Hb]. apply both_inr in Hb as [Hhw Hb].
  apply both_inr in Hb as [Hts Hb]. apply both_inr in Hb as [Hgs Hb].
  apply both_inr in Hb as [Hns Hgl].
  repeat split;
    first [ now apply check_str_inr in Hps | now apply check_str_inr in Hhh
          | eapply check_strs_inr; eassumption
          | eapply check_glossary_inr; eassumption ].
Qed.

(** X9.  The fallback cannot produce an invalid narrative: whatever the
    context, its result validates, with three entries in each of the five
    lists and in the glossary, and a summary that is not empty. *)
Theorem fallback_is_valid (context : str) :
  exists a,
    model_validate (generate_rule_based_summary context) = inr a
    /\ project_summary a <> []
    /\ how_it_helps_people a <> []
    /\ map (@List.length str) [ main_features a; how_it_works a; tech_stack a;
                                getting_started a; next_steps a ] = [3; 3; 3; 3; 3]%nat
    /\ List.length (glossary a) = 3%nat
    /\ forallb renderable (glossary a) = true.
Proof.
  eexists. split; [reflexivity|].
  cbn [project_summary how_it_helps_people main_features how_it_works tech_stack
       getting_started next_steps glossary].
  split; [|repeat split; try reflexivity; discriminate].
  destruct (nonempty (first_value "Description:" (context_lines context))) eqn:E.
  - intros H. rewrite H in E. discriminate E.
  - discriminate.
Qed.

End ValidationFacts.

(** X8 on the dictionary of a narrative with one glossary entry. *)
Lemma model_validate_verbatim_witness :
  model_validate (model_dump sample_narrative) = inr sample_narrative
  /\ read_strs (Some (PList [PStr (lit "Fast"); PStr (lit "Small")]))
               (main_features sample_narrative)
  /\ read_strs None (how_it_works sample_narrative).
Proof.
  assert (H : model_validate (model_dump sample_narrative) = inr sample_narrative)
    by reflexivity.
  split; [exact H|].
  destruct (model_validate_verbatim _ _ H) as [_ [_ [Hmf [Hhw _]]]].
  split; [exact Hmf|].
  left. split; reflexivity.
Defined.

(* ===================================================================== *)
(** * Further properties of the context builder *)
(* ===================================================================== *)

Section ContextFacts.

Lemma commit_line_null item :
  null_message item = true -> commit_line item = inl (no_attribute PNone "strip").
Proof.
  unfold null_message, commit_line.
  destruct (dict_get (lit "message") item) as [[m|]|]; [discriminate | reflexivity | discriminate].
Qed.

Lemma commit_line_message item :
  null_message item = false -> exists line, commit_line item = inr line.
Proof.
  unfold null_message, commit_line.
  destruct (dict_get (lit "message") item) as [[m|]|]; intros H;
    [ | discriminate H | ]; eexists; reflexivity.
Qed.

Lemma for_each_commit_line commits :
  if existsb null_message commits
  then for_each commit_line commits = inl (no_attribute PNone "strip")
  else exists lines, for_each commit_line commits = inr lines
                     /\ List.length lines = List.length commits.
Proof.
  induction commits as [|item commits IH]; cbn [existsb for_each].
  - exists []. split; reflexivity.
  - destruct (null_message item) eqn:Hitem; cbn [orb].
    + now rewrite (commit_line_null _ Hitem).
    + destruct (commit_line_message _ Hitem) as [line ->].
      destruct (existsb null_message commits).
      * now rewrite IH.
      * destruct IH as [lines [-> Hlen]]. exists (line :: lines).
        split; [reflexivity | cbn; now rewrite Hlen].
Qed.

(** X10.  The context builder fails exactly on a [None] commit message.
    If some commit summary binds [message] to [None], [_build_context]
    raises the [AttributeError] of [None.strip], whatever else the
    snapshot holds; otherwise it returns a context. *)
Theorem build_context_null_message (repo : RepositoryInfo) :
  if existsb null_message (recent_commits repo)
  then _build_context repo = inl (no_attribute PNone "strip")
  else exists context, _build_context repo = inr context.
Proof.
  pose proof (for_each_commit_line (recent_commits repo)) as H.
  unfold _build_context.
  destruct (existsb null_message (recent_commits repo)).
  - now rewrite H.
  - destruct H as [lines [-> _]]. eexists. reflexivity.
Qed.

Lemma context_lines_line a rest :
  no_linebreak a = true ->
  ai_agent.context_lines (a ++ newline ++ rest)
  = filter nonempty [strip a] ++ ai_agent.context_lines rest.
Proof.
  intros Ha. unfold ai_agent.context_lines, splitlines, newline. cbn [app].
  rewrite splitlines_go_line by exact Ha. cbn [app map filter].
  destruct (nonempty (strip a)); reflexivity.
Qed.

Lemma first_value_skip prefix line lines :
  startswith (lit prefix) line = false ->
  ai_agent.first_value prefix (line :: lines) = ai_agent.first_value prefix lines.
Proof. intros H. unfold ai_agent.first_value. cbn [find]. now rewrite H. Qed.

Lemma languages_label_kept c : In c (lit "Languages:") -> is_space c = false.
Proof.
  intros H. cbn in H.
  repeat (destruct H as [<-|H]; [reflexivity|]). destruct H.
Qed.

Lemma first_value_languages_line value lines :
  ai_agent.first_value "Languages:"
    (filter nonempty [strip (lit "Languages: " ++ value)] ++ lines)
  = strip value.
Proof.
  change (lit "Languages: " ++ value) with (lit "Languages:" ++ 32%N :: value).
  unfold strip at 1.
  rewrite (rstrip_with_app_none _ _ _ languages_label_kept).
  set (x := rstrip_with is_space (32%N :: value)).
  change (lstrip_with is_space (lit "Languages:" ++ x)) with (lit "Languages:" ++ x).
  pose proof (startswith_app (lit "Languages:") x) as Hs.
  change (lit "Languages:" ++ x) with (76%N :: lit "anguages:" ++ x) in *.
  cbn [filter nonempty app]. unfold ai_agent.first_value. cbn [find]. rewrite Hs.
  change (split1 (lit ":") (76%N :: lit "anguages:" ++ x)) with [lit "Languages"; x].
  cbn [item nth]. subst x. rewrite strip_rstrip. now apply strip_space.
Qed.

(** The value the fallback reads after [Languages:] in a context whose
    first three lines are the repository, description and primary
    language lines. *)
Lemma first_value_languages label value primary listed rest :
  no_linebreak label = true -> no_linebreak value = true ->
  no_linebreak primary = true -> no_linebreak listed = true ->
  ai_agent.first_value "Languages:"
    (ai_agent.context_lines
       (lit "Repository: " ++ label ++ newline
        ++ lit "Description: " ++ value ++ newline
        ++ lit "Primary language: " ++ primary ++ newline
        ++ lit "Languages: " ++ listed ++ newline ++ rest))
  = strip listed.
Proof.
  intros Hl Hv Hp Hs.
  rewrite (app_assoc (lit "Repository: ")).
  rewrite context_lines_line by (apply no_linebreak_app; [reflexivity | exact Hl]).
  rewrite (app_assoc (lit "Description: ")).
  rewrite context_lines_line by (apply no_linebreak_app; [reflexivity | exact Hv]).
  rewrite (app_assoc (lit "Primary language: ")).
  rewrite context_lines_line by (apply no_linebreak_app; [reflexivity | exact Hp]).
  rewrite (app_assoc (lit "Languages: ")).
  rewrite context_lines_line by (apply no_linebreak_app; [reflexivity | exact Hs]).
  change (lit "Repository: " ++ label) with (82%N :: lit "epository: " ++ label).
  change (lit "Description: " ++ value) with (68%N :: lit "escription: " ++ value).
  change (lit "Primary language: " ++ primary)
    with (80%N :: lit "rimary language: " ++ primary).
  rewrite (strip_keep 82%N _ eq_refl), (strip_keep 68%N _ eq_refl),
    (strip_keep 80%N _ eq_refl).
  cbn [filter nonempty app].
  rewrite !first_value_skip by reflexivity.
  apply first_value_languages_line.
Qed.

Lemma join_ends sep (c : char) (parts : list str) :
  parts <> [] ->
  (forall p, In p parts -> exists s, p = s ++ [c]) ->
  exists s, join sep parts = s ++ [c].
Proof.
  induction parts as [|p parts IH]; intros Hne Hall; [congruence|].
  destruct parts as [|q parts].
  - apply Hall. now left.
  - destruct IH as [s Hs]; [discriminate | intros x Hx; apply Hall; now right |].
    exists (p ++ sep ++ s). cbn [join] in *. rewrite Hs. now rewrite <- !app_assoc.
Qed.

Lemma strip_ends_nonspace s c : is_space c = false -> strip (s ++ [c]) <> [].
Proof.
  intros Hc. unfold strip.
  rewrite (rstrip_with_app is_space s c [] Hc). cbn [rstrip_with].
  rewrite (lstrip_with_app is_space s c [] Hc).
  destruct (lstrip_with is_space s); discriminate.
Qed.

Lemma languages_value_kept repo : strip (languages_value repo) <> [].
Proof.
  unfold languages_value.
  destruct (languages repo) as [|e l] eqn:Hlangs; [cbn; discriminate|].
  destruct (join_ends (lit ", ") 41%N
              (map (fun entry => fst entry ++ lit " (" ++ of_Z (snd entry) ++ lit ")")
                   (e :: l))) as [s Hs].
  - discriminate.
  - intros p Hp. apply in_map_iff in Hp as [entry [<- _]].
    exists (fst entry ++ lit " (" ++ of_Z (snd entry)). now rewrite <- !app_assoc.
  - rewrite Hs.
    destruct s as [|x s]; [cbn; discriminate|].
    cbn [app opt_or]. exact (strip_ends_nonspace (x :: s) 41%N eq_refl).
Qed.

(** X11.  What the fallback tells about languages comes from the
    [Languages:] line of the context.  For a snapshot from which a context
    can be built and whose label, description, primary language and
    languages line hold no line break, the first [tech_stack] entry of the
    fallback is "GitHub topics: " followed by the listed languages (or
    "Not reported"), and the second names the part of that text before
    its first comma: the placeholders "Not specified" and "Unknown" of
    the fallback are never used, and neither the topics nor the primary
    language of the snapshot are read. *)
Theorem fallback_reads_languages (repo : RepositoryInfo) (lines : list str) :
  for_each commit_line (recent_commits repo) = inr lines ->
  no_linebreak (label_of repo) = true ->
  no_linebreak (description_value repo) = true ->
  no_linebreak (language_value repo) = true ->
  no_linebreak (languages_value repo) = true ->
  exists context,
    _build_context repo = inr context
    /\ strip (languages_value repo) <> []
    /\ field "tech_stack" (ai_agent.generate_rule_based_summary context)
       = Some (PList
           [ PStr (lit "GitHub topics: " ++ strip (languages_value repo));
             PStr (lit "Primary language reported by GitHub: "
                   ++ item 0 (split (lit ",") (strip (languages_value repo))));
             PStr (lit "Recent commits are highlighted to show ongoing work.") ]).
Proof.
  intros Hlines Hl Hv Hp Hs.
  pose proof (languages_value_kept repo) as Hkept.
  eexists. split; [|split; [exact Hkept|]].
  - unfold _build_context. rewrite Hlines. reflexivity.
  - unfold ai_agent.generate_rule_based_summary.
    fold (label_of repo) (description_value repo) (language_value repo)
         (languages_value repo).
    rewrite (first_value_languages _ _ _ _ _ Hl Hv Hp Hs).
    destruct (strip (languages_value repo)) eqn:E; [congruence|].
    reflexivity.
Qed.

End ContextFacts.

(** X11 on a snapshot that lists two languages. *)
Lemma fallback_reads_languages_witness :
  for_each commit_line (recent_commits two_language_repo) = inr []
  /\ no_linebreak (label_of two_language_repo) = true
  /\ no_linebreak (description_value two_language_repo) = true
  /\ no_linebreak (language_value two_language_repo) = true
  /\ no_linebreak (languages_value two_language_repo) = true
  /\ exists context,
       _build_context two_language_repo = inr context
       /\ field "tech_stack" (ai_agent.generate_rule_based_summary context)
          = Some (PList
              [ PStr (lit "GitHub topics: Python (900), Go (100)");
                PStr (lit "Primary language reported by GitHub: Python (900)");
                PStr (lit "Recent commits are highlighted to show ongoing work.") ]).
Proof.
  assert (H1 : for_each commit_line (recent_commits two_language_repo) = inr [])
    by reflexivity.
  assert (H2 : no_linebreak (label_of two_language_repo) = true) by reflexivity.
  assert (H3 : no_linebreak (description_value two_language_repo) = true) by reflexivity.
  assert (H4 : no_linebreak (language_value two_language_repo) = true) by reflexivity.
  assert (H5 : no_linebreak (languages_value two_language_repo) = true)
    by (vm_compute; reflexivity).
  repeat (split; [assumption|]).
  destruct (fallback_reads_languages two_language_repo [] H1 H2 H3 H4 H5)
    as [context [Hctx [_ Hstack]]].
  exists context. split; [exact Hctx|].
  rewrite Hstack. vm_compute. reflexivity.
Defined.

(* ===================================================================== *)
(** * Further properties of the agent and the analysis endpoint *)
(* ===================================================================== *)

Section PromptFacts.

Lemma startswith_app_l (p a b : str) :
  startswith p a = true -> startswith p (a ++ b) = true.
Proof.
  revert a. induction p as [|x p IH]; intros a H; [reflexivity|].
  destruct a as [|y a]; [discriminate H|].
  cbn [startswith app] in *. apply andb_true_iff in H as [Hxy Hp].
  now rewrite Hxy, (IH _ Hp).
Qed.

Lemma contains_app_l (sub a b : str) :
  contains sub a = true -> contains sub (a ++ b) = true.
Proof.
  induction a as [|y a IH]; intros H.
  - cbn in H. rewrite orb_false_r in H.
    destruct sub; [destruct b; reflexivity | discriminate H].
  - cbn [contains] in H. apply orb_true_iff in H as [H|H].
    + change ((y :: a) ++ b) with (y :: a ++ b).
      pose proof (startswith_app_l sub (y :: a) b H) as Hs.
      change ((y :: a) ++ b) with (y :: a ++ b) in Hs.
      cbn [contains]. now rewrite Hs.
    + change ((y :: a) ++ b) with (y :: a ++ b). cbn [contains].
      rewrite (IH H). apply orb_true_r.
Qed.

Lemma startswith_common (c p s : str) : startswith (c ++ p) (c ++ s) = startswith p s.
Proof.
  induction c as [|x c IH]; [reflexivity|].
  cbn [app startswith]. now rewrite N.eqb_refl, IH.
Qed.

Lemma endswith_app_r (p a b : str) :
  endswith p a = true -> endswith (p ++ b) (a ++ b) = true.
Proof. unfold endswith. intros H. now rewrite !rev_app_distr, startswith_common. Qed.

Lemma user_prompt_frame context :
  ai_agent._build_user_prompt context = ai_agent._build_user_prompt [] ++ context.
Proof.
  unfold ai_agent._build_user_prompt. rewrite app_nil_r.
  now rewrite <- !app_assoc.
Qed.

(** X13.  The user prompt is a fixed frame followed by the context,
    verbatim and last.  The frame asks for one line ["- field: purpose"]
    per entry of [ANALYSIS_FIELDS], and these entries are exactly the
    fields of [RepositoryAnalysis], in the order the model declares them. *)
Theorem user_prompt_shape (context : str) :
  endswith (lit "Repository information:" ++ ai_agent.newline ++ context)
           (ai_agent._build_user_prompt context) = true
  /\ (forall k d, In (k, d) config.ANALYSIS_FIELDS ->
        contains (ai_agent.newline ++ lit "- " ++ k ++ lit ": " ++ d ++ ai_agent.newline)
                 (ai_agent._build_user_prompt context) = true)
  /\ map fst config.ANALYSIS_FIELDS = declared_fields.
Proof.
  split; [|split].
  - rewrite user_prompt_frame, app_assoc. apply endswith_app_r.
    vm_compute. reflexivity.
  - intros k d Hin. rewrite user_prompt_frame. apply contains_app_l.
    unfold config.ANALYSIS_FIELDS, In in Hin.
    repeat (destruct Hin as [Hin|Hin];
            [injection Hin as <- <-; vm_compute; reflexivity|]).
    destruct Hin.
  - reflexivity.
Qed.

End PromptFacts.

Section AgentFacts.

Variable chat_completion : str -> str -> list (str * str) -> Result (option str).
Variable json_loads : str -> Result pyval.

(** X12.  What [call_ai_agent] returns beside the parsed data is the text
    that data was parsed from: the reply of the model to the system and
    user messages, or [{}] when the reply is empty or missing.  It is
    never empty, and parsing it again gives the data. *)
Theorem call_ai_agent_returns (context key model : str) (data : pyval) (message : str) :
  ai_agent.call_ai_agent chat_completion json_loads context key model
    = inr (data, message) ->
  message <> []
  /\ json_loads message = inr data
  /\ exists content,
       chat_completion key model (messages_for context) = inr content
       /\ message = opt_or content (lit "{}").
Proof.
  unfold ai_agent.call_ai_agent. fold (messages_for context).
  destruct (chat_completion key model (messages_for context)) as [exc|content];
    [discriminate|].
  cbn [bind Monad_either].
  destruct (json_loads (opt_or content (lit "{}"))) as [exc|parsed] eqn:Hparse;
    [discriminate|].
  cbn [bind ret Monad_either]. intros H. injection H as <- <-.
  split; [|split; [exact Hparse | exists content; split; reflexivity]].
  destruct content as [[|c s]|]; discriminate.
Qed.

End AgentFacts.

(** X12 on a model that replies nothing. *)
Lemma call_ai_agent_returns_witness :
  ai_agent.call_ai_agent (fun _ _ _ => inr None) loads_empty_object
    [] (lit "sk-demo") (lit "gpt-4o-mini") = inr (PDict [], lit "{}")
  /\ loads_empty_object (lit "{}") = inr (PDict []).
Proof.
  assert (H : ai_agent.call_ai_agent (fun _ _ _ => inr None) loads_empty_object
                [] (lit "sk-demo") (lit "gpt-4o-mini") = inr (PDict [], lit "{}"))
    by reflexivity.
  split; [exact H|].
  exact (proj1 (proj2 (call_ai_agent_returns _ _ _ _ _ _ _ H))).
Defined.

Section EndpointFacts.

Variable client_get : str -> list (str * Z) -> Result github_client.Response.
Variable json_loads : str -> Result pyval.
Variable b64decode : str -> Result (list N).
Variable decode_utf8_ignore : list N -> str.
Variable chat_completion : str -> str -> list (str * str) -> Result (option str).
Variable validate_repository_info : pyval -> Result RepositoryInfo.

Local Abbreviation analyze :=
  (analyze_repository client_get json_loads b64decode decode_utf8_ignore
     chat_completion validate_repository_info).
Local Abbreviation fetch :=
  (github_client.fetch_repository_snapshot client_get json_loads b64decode
     decode_utf8_ignore).

Lemma extract_owner_repo_raises url exc :
  github_client.extract_owner_repo url = inl exc -> exists msg, exc = ValueError msg.
Proof.
  unfold github_client.extract_owner_repo.
  destruct (negb _); [intros H; injection H as <-; eauto|].
  destruct (_ <? _)%nat; [intros H; injection H as <-; eauto | discriminate].
Qed.

Lemma analyze_reaches_narrative payload owner repo snapshot repo_info context :
  github_client.extract_owner_repo (repo_url payload) = inr (owner, repo) ->
  fetch owner repo = inr snapshot ->
  validate_repository_info snapshot = inr repo_info ->
  _build_context repo_info = inr context ->
  analyze payload = narrate json_loads chat_completion payload repo_info context.
Proof.
  intros Hurl Hfetch Hinfo Hctx. unfold analyze_repository.
  now rewrite Hurl, Hfetch, Hinfo, Hctx.
Qed.

(** X14.  Without a key the model is not consulted.  When the request
    carries no [api_key], or an empty one, and the snapshot can be fetched,
    validated and turned into a context, the handler answers with the
    fallback narrative of that context, [used_ai = false] and no
    [raw_response], whatever the chat-completion service would do. *)
Theorem analyze_without_key
    (payload : AnalyzeRequest) (owner repo context : str)
    (snapshot : pyval) (repo_info : RepositoryInfo) :
  github_client.extract_owner_repo (repo_url payload) = inr (owner, repo) ->
  fetch owner repo = inr snapshot ->
  validate_repository_info snapshot = inr repo_info ->
  _build_context repo_info = inr context ->
  api_key payload = None \/ api_key payload = Some [] ->
  exists fallback,
    model_validate (ai_agent.generate_rule_based_summary context) = inr fallback
    /\ analyze payload
       = Responded {| repository := repo_info; analysis := fallback;
                      used_ai := false; raw_response := None |}.
Proof.
  intros Hurl Hfetch Hinfo Hctx Hkey.
  rewrite (analyze_reaches_narrative _ _ _ _ _ _ Hurl Hfetch Hinfo Hctx).
  eexists. split; [reflexivity|].
  unfold narrate. destruct Hkey as [-> | ->]; reflexivity.
Qed.

(** X15.  Failures before the narrative step.  A URL the parser rejects
    ends the request with status 400 and the parser's [ValueError] as
    detail, and the parser raises nothing else; a metadata call that
    answers with a status other than 200 ends it with status 502 and a
    detail that carries that status and the response body.  In both cases
    neither the validation of the snapshot nor the model is reached. *)
Theorem analyze_fails_early (payload : AnalyzeRequest) :
  (forall exc,
      github_client.extract_owner_repo (repo_url payload) = inl exc ->
      (exists msg, exc = ValueError msg)
      /\ analyze payload = HTTPException 400 exc)
  /\ (forall owner repo resp,
        github_client.extract_owner_repo (repo_url payload) = inr (owner, repo) ->
        client_get (github_client.repo_url_of owner repo) [] = inr resp ->
        github_client.status_code resp <> 200%Z ->
        analyze payload
        = HTTPException 502
            (GitHubAPIError (lit "Unable to retrieve repository: "
                             ++ of_Z (github_client.status_code resp) ++ lit " "
                             ++ github_client.text resp))).
Proof.
  split.
  - intros exc Hurl. destruct (extract_owner_repo_raises _ _ Hurl) as [msg ->].
    split; [eauto|]. unfold analyze_repository. now rewrite Hurl.
  - intros owner repo resp Hurl Hget Hstatus.
    unfold analyze_repository. rewrite Hurl.
    unfold github_client.fetch_repository_snapshot. rewrite Hget. cbn [bind Monad_either].
    destruct (Z.eqb_spec (github_client.status_code resp) 200) as [E|E];
      [contradiction | reflexivity].
Qed.

(** X16.  The success path of the model.  With a non-empty key, a reply
    that parses to an object the narrative model accepts is answered with
    that narrative, [used_ai = true], and the reply itself ([{}] for an
    empty or missing one) as [raw_response]; the model named in the
    request is used, "gpt-4o-mini" when none is. *)
Theorem analyze_with_model
    (payload : AnalyzeRequest) (owner repo key context : str)
    (snapshot : pyval) (repo_info : RepositoryInfo)
    (content : option str) (data : pyval) (narrative : RepositoryAnalysis) :
  github_client.extract_owner_repo (repo_url payload) = inr (owner, repo) ->
  fetch owner repo = inr snapshot ->
  validate_repository_info snapshot = inr repo_info ->
  _build_context repo_info = inr context ->
  api_key payload = Some key -> key <> [] ->
  chat_completion key (opt_or (model payload) (lit "gpt-4o-mini")) (messages_for context)
    = inr content ->
  json_loads (opt_or content (lit "{}")) = inr data ->
  model_validate data = inr narrative ->
  analyze payload
  = Responded {| repository := repo_info; analysis := narrative; used_ai := true;
                 raw_response := Some (ModelText (opt_or content (lit "{}"))) |}.
Proof.
  intros Hurl Hfetch Hinfo Hctx Hkey Hne Hreply Hparse Hvalid.
  rewrite (analyze_reaches_narrative _ _ _ _ _ _ Hurl Hfetch Hinfo Hctx).
  destruct key as [|c k]; [congruence|].
  unfold narrate. rewrite Hkey.
  unfold ai_agent.call_ai_agent. fold (messages_for context).
  rewrite Hreply. cbn [bind Monad_either]. rewrite Hparse. cbn [bind ret Monad_either].
  now rewrite Hvalid.
Qed.

Lemma narrate_status payload repo_info context :
  status_of (narrate json_loads chat_completion payload repo_info context) = 200%Z
  \/ status_of (narrate json_loads chat_completion payload repo_info context) = 500%Z.
Proof.
  unfold narrate.
  destruct (api_key payload) as [[|c k]|]; try (left; reflexivity).
  destruct (ai_agent.call_ai_agent _ _ _ _ _) as [exc|[result raw]];
    [left; reflexivity|].
  destruct (model_validate result); [right | left]; reflexivity.
Qed.

(** X17.  The analysis endpoint answers with one of four statuses, 200,
    400, 500 or 502, whatever GitHub, the model and the validation of the
    snapshot do.  It answers 400 exactly when the URL parser rejects the
    URL. *)
Theorem analyze_status (payload : AnalyzeRequest) :
  In (status_of (analyze payload)) analyze_statuses
  /\ (status_of (analyze payload) = 400%Z
      <-> exists exc, github_client.extract_owner_repo (repo_url payload) = inl exc).
Proof.
  unfold analyze_repository, analyze_statuses.
  destruct (github_client.extract_owner_repo (repo_url payload)) as [exc|[owner repo]] eqn:Hurl.
  - destruct (extract_owner_repo_raises _ _ Hurl) as [msg ->].
    cbn. split; [tauto | split; eauto].
  - assert (Hno : ~ exists exc : Exn, @inr Exn _ (owner, repo) = inl exc)
      by (intros [exc H]; discriminate H).
    destruct (fetch owner repo) as [exc|snapshot].
    { destruct exc; cbn; (split; [tauto | split; [discriminate | intros H; destruct (Hno H)]]). }
    destruct (validate_repository_info snapshot) as [exc|repo_info].
    { cbn; (split; [tauto | split; [discriminate | intros H; destruct (Hno H)]]). }
    destruct (_build_context repo_info) as [exc|context].
    { cbn; (split; [tauto | split; [discriminate | intros H; destruct (Hno H)]]). }
    destruct (narrate_status payload repo_info context) as [-> | ->];
      (split; [cbn; tauto | split; [discriminate | intros H; destruct (Hno H)]]).
Qed.

End EndpointFacts.

(** X14 on a request without key, with a model that would reply. *)
Lemma analyze_without_key_witness :
  exists fallback,
    analyze_repository get_empty_object loads_empty_object b64decode_none decode_none
      chat_empty_object validate_bare keyless_request
    = Responded {| repository := bare_info; analysis := fallback;
                   used_ai := false; raw_response := None |}.
Proof.
  destruct (analyze_without_key get_empty_object loads_empty_object b64decode_none
              decode_none chat_empty_object validate_bare keyless_request
              (lit "octocat") (lit "hello-world") _ _ bare_info
              ltac:(vm_compute; reflexivity) ltac:(vm_compute; reflexivity)
              eq_refl ltac:(vm_compute; reflexivity) (or_introl eq_refl))
    as [fallback [_ H]].
  exists fallback. exact H.
Defined.

(** X15 on a URL of another site, and on a provider that answers 404. *)
Lemma analyze_fails_early_witness :
  status_of (analyze_repository get_not_found loads_empty_object b64decode_none decode_none
               chat_empty_object validate_bare foreign_request) = 400%Z
  /\ analyze_repository get_not_found loads_empty_object b64decode_none decode_none
       chat_empty_object validate_bare keyed_request
     = HTTPException 502 (GitHubAPIError (lit "Unable to retrieve repository: 404 Not Found")).
Proof.
  split.
  - destruct (proj1 (analyze_fails_early get_not_found loads_empty_object b64decode_none
                       decode_none chat_empty_object validate_bare foreign_request)
                    (ValueError (lit "The provided URL does not appear to be a GitHub repository"))
                    ltac:(vm_compute; reflexivity)) as [_ H].
    rewrite H. reflexivity.
  - exact (proj2 (analyze_fails_early get_not_found loads_empty_object b64decode_none
                    decode_none chat_empty_object validate_bare keyed_request)
                 (lit "octocat") (lit "hello-world") not_found
                 ltac:(vm_compute; reflexivity) eq_refl ltac:(discriminate)).
Defined.

(** X16 on a model that replies with a two-field narrative. *)
Lemma analyze_with_model_witness :
  analyze_repository get_empty_object loads_short_narrative b64decode_none decode_none
    chat_short_narrative validate_bare keyed_request
  = Responded {| repository := bare_info; analysis := short_narrative; used_ai := true;
                 raw_response := Some (ModelText short_narrative_json) |}.
Proof.
  exact (analyze_with_model get_empty_object loads_short_narrative b64decode_none
           decode_none chat_short_narrative validate_bare keyed_request
           (lit "octocat") (lit "hello-world") (lit "sk-demo") _ _ bare_info
           (Some short_narrative_json) _ short_narrative
           ltac:(vm_compute; reflexivity) ltac:(vm_compute; reflexivity)
           eq_refl ltac:(vm_compute; reflexivity) eq_refl ltac:(discriminate)
           eq_refl ltac:(vm_compute; reflexivity) ltac:(vm_compute; reflexivity)).
Defined.

(** X13 on the last field of the schema. *)
Lemma user_prompt_shape_witness :
  In (lit "glossary",
      lit "A short dictionary of tricky words with beginner-friendly definitions.")
     config.ANALYSIS_FIELDS
  /\ contains
       (ai_agent.newline
        ++ lit "- glossary: A short dictionary of tricky words with beginner-friendly definitions."
        ++ ai_agent.newline)
       (ai_agent._build_user_prompt (lit "Repository: octocat/hello-world")) = true.
Proof.
  assert (H : In (lit "glossary",
                  lit "A short dictionary of tricky words with beginner-friendly definitions.")
                 config.ANALYSIS_FIELDS)
    by (do 7 right; left; reflexivity).
  split; [exact H|].
  exact (proj1 (proj2 (user_prompt_shape (lit "Repository: octocat/hello-world"))) _ _ H).
Defined.

(** X17 on a URL of another site. *)
Lemma analyze_status_witness :
  github_client.extract_owner_repo (repo_url foreign_request)
    = inl (ValueError (lit "The provided URL does not appear to be a GitHub repository"))
  /\ status_of (analyze_repository get_not_found loads_empty_object b64decode_none
                  decode_none chat_empty_object validate_bare foreign_request) = 400%Z.
Proof.
  assert (H : github_client.extract_owner_repo (repo_url foreign_request)
              = inl (ValueError (lit "The provided URL does not appear to be a GitHub repository")))
    by (vm_compute; reflexivity).
  split; [exact H|].
  exact (proj2 (proj2 (analyze_status get_not_found loads_empty_object b64decode_none
                         decode_none chat_empty_object validate_bare foreign_request))
               (ex_intro _ _ H)).
Defined.

(* ===================================================================== *)
(** * Further properties of the document renderer *)
(* ===================================================================== *)

Section DocumentFacts.

Lemma bullet_not_latin1 (x : str) : forallb is_latin1 (bullet ++ x) = false.
Proof. reflexivity. Qed.

Lemma texts_not_latin1 (ts : list str) (t : str) :
  In t ts -> forallb is_latin1 t = false -> forallb (forallb is_latin1) ts = false.
Proof.
  intros Hin Ht. induction ts as [|u ts IH]; [destruct Hin|].
  cbn [forallb]. destruct Hin as [->|Hin].
  - now rewrite Ht.
  - rewrite (IH Hin). apply andb_false_r.
Qed.

Lemma texts_list_calls (items : list str) :
  texts (list_calls items) = map (app bullet) items.
Proof.
  unfold list_calls. cbn [app texts text_of].
  induction items as [|x items IH]; [reflexivity|].
  cbn [map app texts text_of]. now rewrite IH.
Qed.

Lemma texts_list_section title (items : list str) :
  texts (list_section title items)
  = if some items then lit title :: map (app bullet) items else [].
Proof.
  unfold list_section. destruct items as [|x items]; [reflexivity|].
  cbn [some]. rewrite texts_app, texts_list_calls. reflexivity.
Qed.

Lemma texts_glossary_section (entries : list GlossaryItem) :
  texts (glossary_section entries)
  = if some entries then lit "Glossary" :: glossary_texts entries else [].
Proof.
  unfold glossary_section, glossary_texts.
  destruct (some entries); [|reflexivity].
  rewrite texts_app. cbn [heading_calls texts text_of app]. f_equal.
  induction entries as [|e entries IH]; [reflexivity|].
  cbn [flat_map filter]. rewrite texts_app, IH.
  destruct (renderable e); reflexivity.
Qed.

Lemma texts_body_calls (body : str) :
  texts (body_calls body) = if nonempty body then [body] else [].
Proof. destruct body; reflexivity. Qed.

(** The texts of everything [render] draws. *)
Lemma texts_render repo_name a :
  texts (front_calls repo_name a ++ glossary_section (glossary a) ++ footer_calls 1)
  = [ lit "Gitalyzer Report"; opt_or (Some repo_name) (lit "Repository Report") ]
    ++ (if nonempty (project_summary a)
        then [lit "Project Summary"; project_summary a] else [])
    ++ [ lit "How it helps people" ]
    ++ (if nonempty (how_it_helps_people a) then [how_it_helps_people a] else [])
    ++ texts (list_section "Main features" (main_features a))
    ++ texts (list_section "How it works" (how_it_works a))
    ++ texts (list_section "Tech explained simply" (tech_stack a))
    ++ texts (list_section "Getting started" (getting_started a))
    ++ texts (list_section "Next steps" (next_steps a))
    ++ (if some (glossary a) then lit "Glossary" :: glossary_texts (glossary a) else [])
    ++ [ lit "Page 1" ].
Proof.
  unfold front_calls.
  rewrite !texts_app, texts_glossary_section, texts_body_calls.
  destruct (project_summary a) as [|c s].
  - rewrite <- !app_assoc. reflexivity.
  - cbn [nonempty]. rewrite texts_app, texts_body_calls, <- !app_assoc. reflexivity.
Qed.

Lemma in_texts_list_section title (items : list str) (x : str) :
  In x items -> In (bullet ++ x) (texts (list_section title items)).
Proof.
  intros Hin. rewrite texts_list_section.
  destruct items as [|y items]; [destruct Hin|].
  cbn [some]. right. now apply in_map.
Qed.

(** One list item is enough for the encoding to fail. *)
Lemma build_pdf_item repo_name a (x : str) :
  In x (bullet_items a) -> build_pdf repo_name a = inl encode_error.
Proof.
  intros Hin. unfold build_pdf, encode_latin1. rewrite render_calls, texts_render.
  rewrite (texts_not_latin1 _ (bullet ++ x)); [reflexivity | | apply bullet_not_latin1].
  unfold bullet_items in Hin. rewrite !in_app_iff in Hin. rewrite !in_app_iff.
  destruct Hin as [H|[H|[H|[H|H]]]];
    [ apply (in_texts_list_section "Main features") in H
    | apply (in_texts_list_section "How it works") in H
    | apply (in_texts_list_section "Tech explained simply") in H
    | apply (in_texts_list_section "Getting started") in H
    | apply (in_texts_list_section "Next steps") in H ];
    tauto.
Qed.

(** X18.  No document with a list.  Whenever one of the five list fields
    of the narrative holds an item, [build_pdf] raises
    [UnicodeEncodeError]: every item is drawn behind a prefix whose second
    character, U+20AC, Latin-1 cannot encode.  The PDF endpoint then
    answers with status 500. *)
Theorem build_pdf_bullet_lists (repo_name : str) (a : RepositoryAnalysis) :
  bullet_items a <> [] ->
  build_pdf repo_name a = inl encode_error
  /\ generate_pdf {| main.repo_name := repo_name; pdf_analysis := a |}
     = Unhandled encode_error
  /\ status_of (generate_pdf {| main.repo_name := repo_name; pdf_analysis := a |}) = 500%Z.
Proof.
  intros Hne. destruct (bullet_items a) as [|x l] eqn:Hitems; [congruence|].
  assert (H : build_pdf repo_name a = inl encode_error).
  { apply (build_pdf_item repo_name a x). rewrite Hitems. now left. }
  unfold generate_pdf. cbn [main.repo_name pdf_analysis]. rewrite H. auto.
Qed.



(** X20.  The fallback narrative cannot be exported.  For every context
    and every title, the narrative the fallback produces validates, and
    the PDF endpoint fails on it with [UnicodeEncodeError], status 500. *)
Theorem fallback_has_no_pdf (context repo_name : str) :
  exists a,
    model_validate (ai_agent.generate_rule_based_summary context) = inr a
    /\ generate_pdf {| main.repo_name := repo_name; pdf_analysis := a |}
       = Unhandled encode_error.
Proof.
  eexists. split; [reflexivity|].
  unfold generate_pdf. cbn [main.repo_name pdf_analysis].
  rewrite (build_pdf_item _ _ (lit "Automatic GitHub metadata gathering"));
    [reflexivity | now left].
Qed.

End DocumentFacts.

(** X18 on a narrative with a single feature. *)
Lemma build_pdf_bullet_lists_witness :
  bullet_items one_feature <> []
  /\ build_pdf (lit "demo") one_feature = inl encode_error.
Proof.
  assert (H : bullet_items one_feature <> []) by discriminate.
  split; [exact H|].
  exact (proj1 (build_pdf_bullet_lists (lit "demo") one_feature H)).
Defined.

